(** * alog: a levelled logger with a console sink and an asynchronous,
      rotating file sink (Go package [alog]).

    The development embeds the package shallowly: integers are [Z] with the
    width of the Go type written where it matters, Go strings are
    [String.string] (byte strings), the operating system (files, standard
    output, clock) is an explicit state threaded through a small
    state-and-panic monad, and the background goroutine is a step function
    that performs one iteration of its loop. *)

From Stdlib Require Import ZArith String Ascii List Lia Bool.
From stdpp Require Import base option gmap strings list.

Local Open Scope string_scope.
Local Open Scope list_scope.
Local Open Scope Z_scope.

(** ** Go strings and the few library functions the package calls *)

Module GoStr.

Fixpoint split_on (sep : ascii) (acc : string) (s : string) : list string :=
  match s with
  | EmptyString => [String.rev acc]
  | String c s' =>
      if Ascii.eqb c sep then String.rev acc :: split_on sep EmptyString s'
      else split_on sep (String c acc) s'
  end.

(** [strings.Split(s, sep)] for a one-byte separator. *)
Definition Split (s : string) (sep : ascii) : list string :=
  split_on sep EmptyString s.

Fixpoint join_with (sep : string) (l : list string) : string :=
  match l with
  | [] => ""
  | [x] => x
  | x :: r => x +:+ sep +:+ join_with sep r
  end.

Definition digit (n : Z) : ascii := ascii_of_nat (48 + Z.to_nat n).

Fixpoint digits_fuel (fuel : nat) (n : Z) (acc : string) : string :=
  match fuel with
  | O => acc
  | S k =>
      let acc' := String (digit (n mod 10)) acc in
      if n / 10 =? 0 then acc' else digits_fuel k (n / 10) acc'
  end.

(** The verb [%d] of [fmt] on an integer. *)
Definition itoa (n : Z) : string :=
  if n <? 0 then "-" +:+ digits_fuel (S (Z.to_nat (Z.log2 (- n)))) (- n) ""
  else digits_fuel (S (Z.to_nat (Z.log2 n))) n "".

(** [%0wd] for a non-negative integer. *)
Fixpoint pad0 (w : nat) (n : Z) : string :=
  match w with
  | O => ""
  | S k => pad0 k (n / 10) +:+ String (digit (n mod 10)) ""
  end.

End GoStr.

(** ** Package [path]: lexical path cleaning *)

Module path.

Fixpoint clean_go (rooted : bool) (stack : list string) (comps : list string)
  : list string :=
  match comps with
  | [] => List.rev stack
  | c :: r =>
      if String.eqb c "" || String.eqb c "." then clean_go rooted stack r
      else if String.eqb c ".." then
        match stack with
        | top :: below =>
            if String.eqb top ".." then clean_go rooted (c :: stack) r
            else clean_go rooted below r
        | [] => if rooted then clean_go rooted stack r
                else clean_go rooted (c :: stack) r
        end
      else clean_go rooted (c :: stack) r
  end.

Definition is_rooted (p : string) : bool :=
  match p with
  | String c _ => Ascii.eqb c "/"
  | EmptyString => false
  end.

(** [path.Clean]. *)
Definition Clean (p : string) : string :=
  let rooted := is_rooted p in
  let out := GoStr.join_with "/" (clean_go rooted [] (GoStr.Split p "/")) in
  if rooted then "/" +:+ out
  else if String.eqb out "" then "." else out.

(** [path.Join] of two elements: empty elements are ignored, the rest is
    joined with a slash and cleaned. *)
Definition Join (a b : string) : string :=
  match String.eqb a "", String.eqb b "" with
  | true, true => ""
  | true, false => Clean b
  | false, true => Clean a
  | false, false => Clean (a +:+ "/" +:+ b)
  end.

(** [path.Base]: the last element, trailing slashes removed. *)
Definition Base (p : string) : string :=
  if String.eqb p "" then "."
  else
    match List.filter (fun c => negb (String.eqb c ""))
                      (List.rev (GoStr.Split p "/")) with
    | last :: _ => last
    | [] => "/"
    end.

End path.

(** ** Time *)

(** A [time.Time] is an instant, kept as nanoseconds since the Unix epoch;
    a [time.Duration] is an [int64] count of nanoseconds. *)
Definition Time := Z.
Definition Duration := Z.

Module time.

Definition Nanosecond : Duration := 1.
Definition Second : Duration := 1000000000.
Definition Millisecond : Duration := 1000000.
Definition Minute : Duration := 60 * Second.
Definition Hour : Duration := 60 * Minute.

Definition minDuration : Duration := - 2 ^ 63.
Definition maxDuration : Duration := 2 ^ 63 - 1.

(** The zero [Time], January 1 of year 1, which the parser returns with an
    error. *)
Definition zero : Time := -62135596800 * Second.

Definition wrap64 (z : Z) : Z := (z + 2 ^ 63) mod 2 ^ 64 - 2 ^ 63.

(** [t.UnixNano()]: an [int64]. *)
Definition UnixNano (t : Time) : Z := wrap64 t.

(** [t.Add(d)]. *)
Definition Add (t : Time) (d : Duration) : Time := t + d.

(** [t.Sub(u)]: the difference, saturated to the range of [Duration]. *)
Definition Sub (t u : Time) : Duration :=
  if t - u <? minDuration then minDuration
  else if maxDuration <? t - u then maxDuration
  else t - u.

End time.

(** The functions of Go's standard library whose tables (Unicode case
    mapping, the layout language of package [time]) are not part of this
    package are an interface. *)
Class GoLib := {
  (** [strings.ToLower] *)
  strings_ToLower : string -> string;
  (** [t.Format(layout)], in the local time zone *)
  time_Format : Time -> string -> string;
  (** [time.ParseInLocation(layout, value, time.Local)]; [None] is a parse
      error *)
  time_ParseInLocation : string -> string -> option Time
}.

(** ** Levels *)

(** [type Level uint16] *)
Definition Level := Z.

Definition UNKNOWN : Level := 0.
Definition DEBUG : Level := 1.
Definition INFO : Level := 2.
Definition WARN : Level := 3.
Definition ERROR : Level := 4.
Definition FATAL : Level := 5.

Definition error := string.

(** A Go return value paired with an [error]. *)
Inductive res (A : Type) : Type :=
| Val (a : A)
| Err (e : error).
Arguments Val {A} a.
Arguments Err {A} e.

(** [s2L]: the level and the error it returns. *)
Definition s2L `{GoLib} (str : string) : Level * option error :=
  let str := strings_ToLower str in
  if String.eqb str "debug" then (DEBUG, None)
  else if String.eqb str "info" then (INFO, None)
  else if String.eqb str "warn" then (WARN, None)
  else if String.eqb str "error" then (ERROR, None)
  else if String.eqb str "fatal" then (FATAL, None)
  else (UNKNOWN, Some "无效的日志级别").

Definition l2S (lv : Level) : string :=
  if lv =? DEBUG then "DEBUG"
  else if lv =? INFO then "INFO"
  else if lv =? WARN then "WARN"
  else if lv =? ERROR then "ERROR"
  else if lv =? FATAL then "FATAL"
  else "UNKNOWN".

(** Defaults *)
Definition defaultLevel : Level := DEBUG.
Definition defaultTimeFormat : string := "2006-01-02 15:04:05".
Definition defaultFilePath : string := "./log/".
Definition defaultFileName : string := "ALog.log".
Definition defaultMaxFileSize : Z := 2 ^ 23.
Definition defaultMaxChanSize : nat := Z.to_nat 50000.
Definition defaultDuration : Duration := time.Hour * 24.

Definition SplitNone : Z := 0.
Definition SplitBaseOnSize : Z := 1.
Definition SplitBaseOnTime : Z := 2.

(** ** The operating system *)

Inductive Syscall : Type :=
| SysMkdirAll | SysOpenFile | SysStat | SysClose | SysRename | SysWrite.

(** The calls made, in order, with their arguments (handles are the
    addresses of [*os.File] objects). *)
Inductive Event : Type :=
| EvMkdirAll (dir : string)
| EvOpenFile (name : string)
| EvStat (h : nat)
| EvClose (h : nat)
| EvRename (old new : string)
| EvWrite (h : nat) (s : string).

(** An [*os.File]: the name it was opened with, the file it refers to and
    whether it has been closed. *)
Record File : Type := mkFile {
  f_name : string;
  f_ino : nat;
  f_closed : bool
}.

Record FileInfo : Type := mkFileInfo {
  fi_name : string;
  fi_size : Z
}.

(** The state outside the process memory: directory entries, file contents,
    the open-file objects, the next free number for an object or a file,
    which calls currently fail for an external reason (full disk,
    permissions, ...), what has been printed, the clock, and the calls made
    so far. *)
Record OS : Type := mkOS {
  names : gmap string nat;
  data : gmap nat string;
  files : gmap nat File;
  next : nat;
  fails : Syscall -> bool;
  stdout : list string;
  clock : Time;
  trace : list Event
}.

Definition set_names (v : gmap string nat) (o : OS) : OS :=
  mkOS v (data o) (files o) (next o) (fails o) (stdout o) (clock o) (trace o).
Definition set_data (v : gmap nat string) (o : OS) : OS :=
  mkOS (names o) v (files o) (next o) (fails o) (stdout o) (clock o) (trace o).
Definition set_files (v : gmap nat File) (o : OS) : OS :=
  mkOS (names o) (data o) v (next o) (fails o) (stdout o) (clock o) (trace o).
Definition set_next (v : nat) (o : OS) : OS :=
  mkOS (names o) (data o) (files o) v (fails o) (stdout o) (clock o) (trace o).
Definition set_stdout (v : list string) (o : OS) : OS :=
  mkOS (names o) (data o) (files o) (next o) (fails o) v (clock o) (trace o).
Definition set_clock (v : Time) (o : OS) : OS :=
  mkOS (names o) (data o) (files o) (next o) (fails o) (stdout o) v (trace o).
Definition emit (e : Event) (o : OS) : OS :=
  mkOS (names o) (data o) (files o) (next o) (fails o) (stdout o) (clock o)
       (trace o ++ [e]).

(** How a call of the package ends: it returns, it panics, or it ends the
    process with [os.Exit]; [Block] is a goroutine that waits forever. *)
Inductive Outcome (A : Type) : Type :=
| Ok (a : A)
| Panic (e : error)
| Exit (code : Z)
| Block.
Arguments Ok {A} a.
Arguments Panic {A} e.
Arguments Exit {A} code.
Arguments Block {A}.

(** A computation over a state [S]; the state survives a panic. *)
Definition St (S A : Type) : Type := S -> Outcome A * S.
Abbreviation M := (St OS).

Definition ret {S A} (a : A) : St S A := fun o => (Ok a, o).

Definition bind {S A B} (m : St S A) (k : A -> St S B) : St S B :=
  fun o =>
    match m o with
    | (Ok a, o') => k a o'
    | (Panic e, o') => (Panic e, o')
    | (Exit c, o') => (Exit c, o')
    | (Block, o') => (Block, o')
    end.

Definition panic {S A} (e : error) : St S A := fun o => (Panic e, o).
Definition os_Exit {S A} (code : Z) : St S A := fun o => (Exit code, o).
Definition block {S A} : St S A := fun o => (Block, o).

Declare Scope go_scope.
Delimit Scope go_scope with go.
Notation "x <- m ;; k" := (bind m (fun x => k))
  (at level 100, m at next level, right associativity) : go_scope.
Local Open Scope go_scope.

(** [fmt.Printf] / [fmt.Println] with the text already formatted. *)
Definition fmt_Print (s : string) : M unit :=
  fun o => (Ok tt, set_stdout (stdout o ++ [s]) o).

Definition time_Now : M Time := fun o => (Ok (clock o), o).

Definition time_Sleep (d : Duration) : M unit :=
  fun o => (Ok tt, set_clock (clock o + d) o).

Definition os_MkdirAll (dir : string) : M (res unit) :=
  fun o =>
    let o := emit (EvMkdirAll dir) o in
    if fails o SysMkdirAll then (Ok (Err "mkdir failed"), o)
    else (Ok (Val tt), o).

(** [os.OpenFile(name, O_APPEND|O_CREATE|O_WRONLY, perm)] *)
Definition os_OpenFile (name : string) : M (res nat) :=
  fun o =>
    let o := emit (EvOpenFile name) o in
    if fails o SysOpenFile then (Ok (Err "open failed"), o)
    else
      let h := next o in
      match names o !! name with
      | Some ino =>
          (Ok (Val h), set_next (S h) (set_files (<[h := mkFile name ino false]> (files o)) o))
      | None =>
          let ino := S h in
          (Ok (Val h),
           set_next (S (S h))
             (set_files (<[h := mkFile name ino false]> (files o))
                (set_data (<[ino := ""]> (data o))
                   (set_names (<[name := ino]> (names o)) o))))
      end.

Definition contents (o : OS) (ino : nat) : string := default "" (data o !! ino).

(** [file.Stat()] *)
Definition file_Stat (h : nat) : M (res FileInfo) :=
  fun o =>
    let o := emit (EvStat h) o in
    if fails o SysStat then (Ok (Err "stat failed"), o)
    else
      match files o !! h with
      | Some f =>
          if f_closed f then (Ok (Err "file already closed"), o)
          else (Ok (Val (mkFileInfo (path.Base (f_name f))
                                    (Z.of_nat (String.length (contents o (f_ino f)))))), o)
      | None => (Ok (Err "invalid argument"), o)
      end.

(** [file.Close()]: the object is closed even when the call reports an
    error. *)
Definition file_Close (h : nat) : M (res unit) :=
  fun o =>
    let o := emit (EvClose h) o in
    match files o !! h with
    | Some f =>
        if f_closed f then (Ok (Err "file already closed"), o)
        else
          let o' := set_files (<[h := mkFile (f_name f) (f_ino f) true]> (files o)) o in
          if fails o SysClose then (Ok (Err "close failed"), o')
          else (Ok (Val tt), o')
    | None => (Ok (Err "invalid argument"), o)
    end.

(** [os.Rename(old, new)] *)
Definition os_Rename (old new : string) : M (res unit) :=
  fun o =>
    let o := emit (EvRename old new) o in
    if fails o SysRename then (Ok (Err "rename failed"), o)
    else
      match names o !! old with
      | Some ino => (Ok (Val tt), set_names (<[new := ino]> (delete old (names o))) o)
      | None => (Ok (Err "no such file or directory"), o)
      end.

(** [fmt.Fprint(file, s)] on a file opened for appending. *)
Definition fmt_Fprint (h : nat) (s : string) : M (res unit) :=
  fun o =>
    let o := emit (EvWrite h s) o in
    if fails o SysWrite then (Ok (Err "write failed"), o)
    else
      match files o !! h with
      | Some f =>
          if f_closed f then (Ok (Err "file already closed"), o)
          else (Ok (Val tt),
                set_data (<[f_ino f := contents o (f_ino f) +:+ s]> (data o)) o)
      | None => (Ok (Err "invalid argument"), o)
      end.

(** ** Call sites and rendering *)

Definition nl : string := String (ascii_of_nat 10) "".

(** What [runtime.Caller(skip)] and [runtime.FuncForPC(pc).Name()] give for
    the frame [skip] levels up: the source path, the function name, which Go
    writes as a package path, a dot and the name, and the line. *)
Record Caller : Type := mkCaller {
  c_file : string;
  c_pkg : string;
  c_name : string;
  c_line : Z
}.

Definition FuncName (c : Caller) : string := c_pkg c +:+ "." +:+ c_name c.

(** [traceInfo]; its argument is the answer of [runtime.Caller], [None]
    when that call reports failure. *)
Definition traceInfo (c : option Caller) : M (string * string * Z) :=
  match c with
  | None =>
      _ <- fmt_Print ("runtime.Caller() failed" +:+ nl) ;;
      ret ("", "", 0)
  | Some c =>
      let fileName := path.Base (c_file c) in
      let funcName := nth 1 (GoStr.Split (FuncName c) ".") "" in
      ret (fileName, funcName, c_line c)
  end.

(** [fmt.Sprintf("[%s] [%s] [%s:%s:%d] %s\n", a, b, c, d, n, m)] *)
Definition Sprintf_line (a b c d : string) (n : Z) (m : string) : string :=
  "[" +:+ a +:+ "] [" +:+ b +:+ "] [" +:+ c +:+ ":" +:+ d +:+ ":"
      +:+ GoStr.itoa n +:+ "] " +:+ m +:+ nl.

(** ** The console sink *)

Record consoleLogger : Type := mkConsoleLogger {
  c_level : Level;
  c_timeFormat : string
}.

Definition newConsoleLogger : consoleLogger :=
  mkConsoleLogger defaultLevel defaultTimeFormat.

Definition consoleLogger_enable (c : consoleLogger) (logeLevel : Level) : bool :=
  c_level c <=? logeLevel.

(** [consoleLogger.log]; [msg] is the message after [fmt.Sprintf] has
    substituted the arguments, [site] the frame of the caller. *)
Definition consoleLogger_log `{GoLib} (c : consoleLogger) (lv : Level)
    (msg : string) (site : option Caller) : M unit :=
  if consoleLogger_enable c lv then
    now <- time_Now ;;
    tr <- traceInfo site ;;
    let '(fileName, funcName, lineNo) := tr in
    fmt_Print (Sprintf_line (time_Format now (c_timeFormat c)) (l2S lv)
                 fileName funcName lineNo msg)
  else ret tt.

(** ** The file sink *)

Record logMsg : Type := mkLogMsg {
  m_level : Level;
  m_msg : string;
  m_funcName : string;
  m_fileName : string;
  m_timeStamp : string;
  m_line : Z
}.

(** A buffered channel seen from the goroutines that use it without
    waiting: the elements in flight and the capacity. *)
Record chan (A : Type) : Type := mkChan {
  buf : list A;
  cap : nat
}.
Arguments mkChan {A} buf cap.
Arguments buf {A} c.
Arguments cap {A} c.

(** The send case of a [select] with a [default]: [None] when the send
    cannot proceed. *)
Definition trySend {A} (c : chan A) (x : A) : option (chan A) :=
  if (length (buf c) <? cap c)%nat then Some (mkChan (buf c ++ [x]) (cap c))
  else None.

Definition tryRecv {A} (c : chan A) : option (A * chan A) :=
  match buf c with
  | x :: r => Some (x, mkChan r (cap c))
  | [] => None
  end.

(** Where the goroutine started by [initFile] stands: in its main loop, in
    the loop entered after the close signal, or returned. *)
Inductive Worker : Type := WNotStarted | WRunning | WDraining | WStopped.

Record fileLogger : Type := mkFileLogger {
  level : Level;
  timeFormat : string;
  filePath : string;
  fileName : string;
  logChan : chan logMsg;
  fileObj : nat;
  splitMode : Z;
  maxFileSize : Z;
  duration : Duration;
  startTime : Time;
  worker : Worker
}.

Definition set_level (v : Level) (f : fileLogger) : fileLogger :=
  mkFileLogger v (timeFormat f) (filePath f) (fileName f) (logChan f) (fileObj f)
    (splitMode f) (maxFileSize f) (duration f) (startTime f) (worker f).
Definition set_timeFormat (v : string) (f : fileLogger) : fileLogger :=
  mkFileLogger (level f) v (filePath f) (fileName f) (logChan f) (fileObj f)
    (splitMode f) (maxFileSize f) (duration f) (startTime f) (worker f).
Definition set_filePath (v : string) (f : fileLogger) : fileLogger :=
  mkFileLogger (level f) (timeFormat f) v (fileName f) (logChan f) (fileObj f)
    (splitMode f) (maxFileSize f) (duration f) (startTime f) (worker f).
Definition set_fileName (v : string) (f : fileLogger) : fileLogger :=
  mkFileLogger (level f) (timeFormat f) (filePath f) v (logChan f) (fileObj f)
    (splitMode f) (maxFileSize f) (duration f) (startTime f) (worker f).
Definition set_logChan (v : chan logMsg) (f : fileLogger) : fileLogger :=
  mkFileLogger (level f) (timeFormat f) (filePath f) (fileName f) v (fileObj f)
    (splitMode f) (maxFileSize f) (duration f) (startTime f) (worker f).
Definition set_fileObj (v : nat) (f : fileLogger) : fileLogger :=
  mkFileLogger (level f) (timeFormat f) (filePath f) (fileName f) (logChan f) v
    (splitMode f) (maxFileSize f) (duration f) (startTime f) (worker f).
Definition set_splitMode (v : Z) (f : fileLogger) : fileLogger :=
  mkFileLogger (level f) (timeFormat f) (filePath f) (fileName f) (logChan f)
    (fileObj f) v (maxFileSize f) (duration f) (startTime f) (worker f).
Definition set_maxFileSize (v : Z) (f : fileLogger) : fileLogger :=
  mkFileLogger (level f) (timeFormat f) (filePath f) (fileName f) (logChan f)
    (fileObj f) (splitMode f) v (duration f) (startTime f) (worker f).
Definition set_duration (v : Duration) (f : fileLogger) : fileLogger :=
  mkFileLogger (level f) (timeFormat f) (filePath f) (fileName f) (logChan f)
    (fileObj f) (splitMode f) (maxFileSize f) v (startTime f) (worker f).
Definition set_startTime (v : Time) (f : fileLogger) : fileLogger :=
  mkFileLogger (level f) (timeFormat f) (filePath f) (fileName f) (logChan f)
    (fileObj f) (splitMode f) (maxFileSize f) (duration f) v (worker f).
Definition set_worker (v : Worker) (f : fileLogger) : fileLogger :=
  mkFileLogger (level f) (timeFormat f) (filePath f) (fileName f) (logChan f)
    (fileObj f) (splitMode f) (maxFileSize f) (duration f) (startTime f) v.

(** The address of no object. *)
Definition nil : nat := 0%nat.

(** The start of the period of length [d] that contains [now]:
    [now.Add(-time.Duration(now.UnixNano() % d.Nanoseconds()))]. *)
Definition periodAnchor (now : Time) (d : Duration) : Time :=
  time.Add now (- Z.rem (time.UnixNano now) d).

Section FileSink.
Context `{GoLib}.

(** [fileLogger.enable] *)
Definition fileLogger_enable (f : fileLogger) (lv : Level) : bool :=
  level f <=? lv.

(** [fileLogger.log]: the record is built and offered to the channel; when
    the channel cannot take it the [default] case drops it. *)
Definition fileLogger_log (f : fileLogger) (lv : Level) (msg : string)
    (site : option Caller) : M fileLogger :=
  if fileLogger_enable f lv then
    now <- time_Now ;;
    tr <- traceInfo site ;;
    let '(fileName, funcName, lineNo) := tr in
    let logTmp := mkLogMsg lv msg funcName fileName
                    (time_Format now (timeFormat f)) lineNo in
    match trySend (logChan f) logTmp with
    | Some c => ret (set_logChan c f)
    | None => ret f
    end
  else ret f.

(** [fileLogger.checkSize] *)
Definition checkSize (f : fileLogger) (file : nat) : M bool :=
  r <- file_Stat file ;;
  match r with
  | Err e =>
      _ <- fmt_Print ("get file info failed, err:" +:+ e +:+ nl) ;;
      ret false
  | Val fileInfo => ret (fi_size fileInfo >=? maxFileSize f)
  end.

(** [fileLogger.checkTime] *)
Definition checkTime (f : fileLogger) (nowTime : Time) : bool :=
  time.Sub nowTime (startTime f) >=? duration f.

(** The layout of the suffix of a file archived by time. *)
Definition suffixLayout (d : Duration) : string :=
  if Z.rem d (time.Hour * 24) =? 0 then "20060102"
  else if Z.rem d time.Hour =? 0 then "2006010215"
  else if Z.rem d time.Minute =? 0 then "200601021504"
  else "20060102150405".

(** [fileLogger.splitFile]: the new file object, or the error. *)
Definition splitFile (f : fileLogger) (file : nat) (mode : Z) : M (res nat) :=
  nowStr <-
    (if mode =? SplitBaseOnSize then
       now <- time_Now ;; ret (time_Format now "20060102150405")
     else if mode =? SplitBaseOnTime then
       ret (time_Format (startTime f) (suffixLayout (duration f)))
     else ret "") ;;
  r <- file_Stat file ;;
  match r with
  | Err e =>
      _ <- fmt_Print ("get file info failed, err:" +:+ e +:+ nl) ;;
      ret (Err e)
  | Val fileInfo =>
      let logName := path.Join (filePath f) (fi_name fileInfo) in
      let newLogName := logName +:+ "." +:+ nowStr +:+ ".bak" in
      _ <- file_Close file ;;
      _ <- os_Rename logName newLogName ;;
      r <- os_OpenFile logName ;;
      match r with
      | Err e =>
          _ <- fmt_Print ("open new log file failed, err:" +:+ e +:+ nl) ;;
          ret (Err e)
      | Val fileObj => ret (Val fileObj)
      end
  end.

(** [fileLogger.splitFileByTime] *)
Definition splitFileByTime (f : fileLogger) (logTime : Time) : M fileLogger :=
  if (splitMode f =? SplitBaseOnTime) && checkTime f logTime then
    r <- splitFile f (fileObj f) SplitBaseOnTime ;;
    if duration f =? 0 then panic "integer divide by zero"
    else
      let subTime := Z.rem (time.UnixNano logTime) (duration f) in
      let f :=
        if Z.quot subTime time.Second =? 0 then set_startTime logTime f
        else set_startTime (time.Add logTime subTime) f in
      let f := set_startTime logTime f in
      match r with
      | Err e => panic e
      | Val newFile => ret (set_fileObj newFile f)
      end
  else ret f.

(** [fileLogger.writeIntoFile] *)
Definition writeIntoFile (f : fileLogger) (logTmp : logMsg) : M fileLogger :=
  let logTime :=
    default time.zero (time_ParseInLocation (timeFormat f) (m_timeStamp logTmp)) in
  f <- splitFileByTime f logTime ;;
  let logInfo :=
    Sprintf_line (m_timeStamp logTmp) (l2S (m_level logTmp))
      (m_funcName logTmp) (m_fileName logTmp) (m_line logTmp) (m_msg logTmp) in
  _ <- fmt_Fprint (fileObj f) logInfo ;;
  ret f.

(** Which of two ready cases of a [select] the runtime takes. *)
Inductive Pick : Type := PickFirst | PickSecond.

(** The first statement of the loop of [fileLogger.writeLogBackground]:
    rotation by size, when the mode asks for it and the file is big. *)
Definition sizeRotation (f : fileLogger) : M fileLogger :=
  if splitMode f =? SplitBaseOnSize then
    big <- checkSize f (fileObj f) ;;
    if big then
      r <- splitFile f (fileObj f) SplitBaseOnSize ;;
      match r with
      | Err e => panic e
      | Val newFile => ret (set_fileObj newFile f)
      end
    else ret f
  else ret f.

(** The second statement, the outer [select]. [closeReady] tells whether a
    goroutine is waiting to send on [closeChan]; [pick] is the choice of the
    runtime when both that case and the receive from [logChan] are ready.
    Taking the close case starts the timer and enters the inner loop. *)
Definition selectOnce (closeReady : bool) (pick : Pick) (f : fileLogger)
  : M fileLogger :=
  match closeReady, tryRecv (logChan f), pick with
  | true, None, _ | true, Some _, PickFirst =>
      ret (set_worker WDraining f)
  | _, Some (logTmp, c), _ =>
      writeIntoFile (set_logChan c f) logTmp
  | false, None, _ =>
      _ <- time_Sleep (time.Millisecond * 500) ;;
      ret f
  end.

(** One iteration of the loop of [fileLogger.writeLogBackground]. *)
Definition writeLogBackground_iter (closeReady : bool) (pick : Pick)
    (f : fileLogger) : M fileLogger :=
  f <- sizeRotation f ;;
  selectOnce closeReady pick f.

(** One iteration of the inner loop, entered after the close signal.
    [timerFired] tells whether a second has passed since the timer was last
    set; with nothing ready the goroutine waits. *)
Definition drain_iter (timerFired : bool) (pick : Pick) (f : fileLogger)
  : M fileLogger :=
  match tryRecv (logChan f), timerFired, pick with
  | Some (logTmp, c), false, _ | Some (logTmp, c), true, PickFirst =>
      writeIntoFile (set_logChan c f) logTmp
  | Some _, true, PickSecond | None, true, _ =>
      ret (set_worker WStopped f)
  | None, false, _ => ret f
  end.

(** A step of the goroutine, wherever it stands. *)
Definition worker_step (closeReady timerFired : bool) (pick : Pick)
    (f : fileLogger) : M fileLogger :=
  match worker f with
  | WRunning => writeLogBackground_iter closeReady pick f
  | WDraining => drain_iter timerFired pick f
  | WNotStarted | WStopped => ret f
  end.

(** [fileLogger.initFile] *)
Definition initFile (f : fileLogger) : M fileLogger :=
  let fullFileName := path.Join (filePath f) (fileName f) in
  r <- os_MkdirAll (filePath f) ;;
  match r with
  | Err _ => panic "无法为此路径创建文件夹"
  | Val _ =>
      r <- os_OpenFile fullFileName ;;
      match r with
      | Err e => panic e
      | Val fileObj => ret (set_worker WRunning (set_fileObj fileObj f))
      end
  end.

(** [newFileLogger] *)
Definition newFileLogger : M fileLogger :=
  now <- time_Now ;;
  let st := periodAnchor now defaultDuration in
  initFile
    {| level := defaultLevel;
       timeFormat := defaultTimeFormat;
       filePath := defaultFilePath;
       fileName := defaultFileName;
       maxFileSize := defaultMaxFileSize;
       logChan := mkChan [] defaultMaxChanSize;
       fileObj := nil;
       splitMode := SplitNone;
       duration := defaultDuration;
       startTime := st;
       worker := WNotStarted |}.

(** [fileLogger.Close]: the send on the unbuffered [closeChan] completes
    when the goroutine, in its main loop, takes the close case of its
    [select]; in any other state of the goroutine nobody receives. The file
    object is closed right after. *)
Definition fileLogger_Close (f : fileLogger) : M fileLogger :=
  match worker f with
  | WRunning =>
      f <- writeLogBackground_iter true PickFirst f ;;
      _ <- file_Close (fileObj f) ;;
      ret f
  | _ => block
  end.

End FileSink.

(** ** The logger *)

Record Log : Type := mkLog {
  CLogger : option consoleLogger;
  FLogger : option fileLogger;
  isClose : bool
}.

Section Logger.
Context `{GoLib}.

(** [New]: console mode, level DEBUG. (The goroutine it starts is
    [onSignal] below.) *)
Definition New : Log := mkLog (Some newConsoleLogger) None false.

Definition SetConsoleMode (l : Log) : Log :=
  mkLog (Some newConsoleLogger) None (isClose l).

Definition SetFileMode (l : Log) : M Log :=
  fl <- newFileLogger ;;
  ret (mkLog None (Some fl) (isClose l)).

Definition SetBothMode (l : Log) : M Log :=
  fl <- newFileLogger ;;
  ret (mkLog (Some newConsoleLogger) (Some fl) (isClose l)).

Definition SetFilePath (l : Log) (path : string) : Log :=
  mkLog (CLogger l) (set_filePath path <$> FLogger l) (isClose l).

Definition SetFileName (l : Log) (name : string) : Log :=
  mkLog (CLogger l) (set_fileName name <$> FLogger l) (isClose l).

(** [SetLevel]: a computation on the logger itself, which keeps what was
    assigned when the call panics. *)
Definition SetLevel (str : string) : St Log unit :=
  fun l =>
    let '(level, err) := s2L str in
    let l := mkLog ((fun c => mkConsoleLogger level (c_timeFormat c)) <$> CLogger l)
                   (FLogger l) (isClose l) in
    let l := mkLog (CLogger l) (set_level level <$> FLogger l) (isClose l) in
    match err with
    | Some e => (Panic e, l)
    | None => (Ok tt, l)
    end.

Definition SetTimeFormat (l : Log) (format : string) : Log :=
  mkLog ((fun c => mkConsoleLogger (c_level c) format) <$> CLogger l)
        (set_timeFormat format <$> FLogger l) (isClose l).

Definition SetSplitMode (l : Log) (mode : Z) : Log :=
  mkLog (CLogger l) (set_splitMode mode <$> FLogger l) (isClose l).

Definition SetMaxFileSize (l : Log) (size : Z) : Log :=
  mkLog (CLogger l) (set_maxFileSize size <$> FLogger l) (isClose l).

(** [SetSplitDuration] *)
Definition SetSplitDuration (l : Log) (duration : Duration) : M Log :=
  _ <- (if duration <? time.Minute * 10 then
          _ <- fmt_Print ("切割文件时间至少为10分钟" +:+ nl) ;;
          os_Exit 1
        else ret tt) ;;
  match FLogger l with
  | Some f =>
      now <- time_Now ;;
      ret (mkLog (CLogger l)
             (Some (set_startTime (periodAnchor now duration)
                      (set_duration duration f)))
             (isClose l))
  | None => ret l
  end.

(** [Log.Close] *)
Definition Log_Close (l : Log) : M Log :=
  match FLogger l with
  | Some f =>
      f <- fileLogger_Close f ;;
      ret (mkLog (CLogger l) (Some f) (isClose l))
  | None => ret l
  end.

(** The body shared by [Log.Debug], [Log.Info], [Log.Warn], [Log.Error] and
    [Log.Fatal], which differ in the level they pass on. *)
Definition Log_log (lv : Level) (l : Log) (msg : string) (site : option Caller)
  : M Log :=
  l <-
    match FLogger l with
    | Some f =>
        if negb (isClose l) then
          f <- fileLogger_log f lv msg site ;;
          ret (mkLog (CLogger l) (Some f) (isClose l))
        else ret l
    | None => ret l
    end ;;
  match CLogger l with
  | Some c =>
      if negb (isClose l) then
        _ <- consoleLogger_log c lv msg site ;;
        ret l
      else ret l
  | None => ret l
  end.

Definition Log_Debug := Log_log DEBUG.
Definition Log_Info := Log_log INFO.
Definition Log_Warn := Log_log WARN.
Definition Log_Error := Log_log ERROR.
Definition Log_Fatal := Log_log FATAL.

(** The goroutine started by [New], from the moment a termination signal
    arrives. *)
Definition onSignal (l : Log) : M Log :=
  _ <- fmt_Print ("Cleaning before stop..." +:+ nl) ;;
  let l := mkLog (CLogger l) (FLogger l) true in
  _ <- time_Sleep (time.Millisecond * 500) ;;
  l <- Log_Close l ;;
  os_Exit 1.

End Logger.

(** ** An executable instance of the library interface

    Enough of Go's library to run the package on concrete inputs: ASCII
    case mapping (what [strings.ToLower] does on a string of ASCII bytes),
    and the layouts of package [time] made of the elements [2006], [01],
    [02], [15], [04], [05] and punctuation, with UTC as the local zone. *)

Module Sim.

Definition lower_ascii (c : ascii) : ascii :=
  let n := nat_of_ascii c in
  if ((65 <=? n) && (n <=? 90))%nat then ascii_of_nat (n + 32) else c.

Fixpoint ToLower (s : string) : string :=
  match s with
  | EmptyString => EmptyString
  | String c r => String (lower_ascii c) (ToLower r)
  end.

Inductive Tok : Type :=
| TYear | TMonth | TDay | THour | TMinute | TSecond | TLit (c : ascii).

Fixpoint tokens (skip : nat) (s : string) : list Tok :=
  match s with
  | EmptyString => []
  | String c r =>
      match skip with
      | S k => tokens k r
      | O =>
          if String.prefix "2006" s then TYear :: tokens 3 r
          else if String.prefix "01" s then TMonth :: tokens 1 r
          else if String.prefix "02" s then TDay :: tokens 1 r
          else if String.prefix "15" s then THour :: tokens 1 r
          else if String.prefix "04" s then TMinute :: tokens 1 r
          else if String.prefix "05" s then TSecond :: tokens 1 r
          else TLit c :: tokens 0 r
      end
  end.

(** Days since 1970-01-01 of a date of the proleptic Gregorian calendar. *)
Definition days_from_civil (y m d : Z) : Z :=
  let y := if m <=? 2 then y - 1 else y in
  let era := y / 400 in
  let yoe := y - era * 400 in
  let doy := (153 * (if 2 <? m then m - 3 else m + 9) + 2) / 5 + d - 1 in
  let doe := yoe * 365 + yoe / 4 - yoe / 100 + doy in
  era * 146097 + doe - 719468.

Definition civil_from_days (z : Z) : Z * Z * Z :=
  let z := z + 719468 in
  let era := z / 146097 in
  let doe := z - era * 146097 in
  let yoe := (doe - doe / 1460 + doe / 36524 - doe / 146096) / 365 in
  let doy := doe - (365 * yoe + yoe / 4 - yoe / 100) in
  let mp := (5 * doy + 2) / 153 in
  let d := doy - (153 * mp + 2) / 5 + 1 in
  let m := if mp <? 10 then mp + 3 else mp - 9 in
  let y := yoe + era * 400 in
  (if m <=? 2 then y + 1 else y, m, d).

Definition Format (t : Time) (layout : string) : string :=
  let secs := t / time.Second in
  let '(y, m, d) := civil_from_days (secs / 86400) in
  let sod := secs mod 86400 in
  GoStr.join_with ""
    (List.map (fun k =>
       match k with
       | TYear => GoStr.pad0 4 y
       | TMonth => GoStr.pad0 2 m
       | TDay => GoStr.pad0 2 d
       | THour => GoStr.pad0 2 (sod / 3600)
       | TMinute => GoStr.pad0 2 (sod mod 3600 / 60)
       | TSecond => GoStr.pad0 2 (sod mod 60)
       | TLit c => String c ""
       end) (tokens 0 layout)).

Definition digit_val (c : ascii) : option Z :=
  let n := nat_of_ascii c in
  if ((48 <=? n) && (n <=? 57))%nat then Some (Z.of_nat n - 48) else None.

Fixpoint read_num (n : nat) (acc : Z) (v : string) : option (Z * string) :=
  match n with
  | O => Some (acc, v)
  | S k =>
      match v with
      | String c r =>
          match digit_val c with
          | Some x => read_num k (acc * 10 + x) r
          | None => None
          end
      | EmptyString => None
      end
  end.

Record Fields : Type := mkFields {
  year : Z; month : Z; day : Z; hour : Z; minute : Z; second : Z
}.

Fixpoint parse_go (ts : list Tok) (v : string) (a : Fields) : option Fields :=
  match ts with
  | [] => if String.eqb v "" then Some a else None
  | TLit c :: ts' =>
      match v with
      | String c' r => if Ascii.eqb c c' then parse_go ts' r a else None
      | EmptyString => None
      end
  | TYear :: ts' =>
      '(x, r) ← read_num 4 0 v;
      parse_go ts' r (mkFields x (month a) (day a) (hour a) (minute a) (second a))
  | TMonth :: ts' =>
      '(x, r) ← read_num 2 0 v;
      if (1 <=? x) && (x <=? 12) then
        parse_go ts' r (mkFields (year a) x (day a) (hour a) (minute a) (second a))
      else None
  | TDay :: ts' =>
      '(x, r) ← read_num 2 0 v;
      if (1 <=? x) && (x <=? 31) then
        parse_go ts' r (mkFields (year a) (month a) x (hour a) (minute a) (second a))
      else None
  | THour :: ts' =>
      '(x, r) ← read_num 2 0 v;
      if x <? 24 then
        parse_go ts' r (mkFields (year a) (month a) (day a) x (minute a) (second a))
      else None
  | TMinute :: ts' =>
      '(x, r) ← read_num 2 0 v;
      if x <? 60 then
        parse_go ts' r (mkFields (year a) (month a) (day a) (hour a) x (second a))
      else None
  | TSecond :: ts' =>
      '(x, r) ← read_num 2 0 v;
      if x <? 60 then
        parse_go ts' r (mkFields (year a) (month a) (day a) (hour a) (minute a) x)
      else None
  end.

Definition is_leap (y : Z) : bool :=
  (y mod 4 =? 0) && (negb (y mod 100 =? 0) || (y mod 400 =? 0)).

Definition days_in (m y : Z) : Z :=
  if m =? 2 then (if is_leap y then 29 else 28)
  else if (m =? 4) || (m =? 6) || (m =? 9) || (m =? 11) then 30
  else 31.

Definition Parse (layout value : string) : option Time :=
  a ← parse_go (tokens 0 layout) value (mkFields 0 1 1 0 0 0);
  if day a <=? days_in (month a) (year a) then
    Some ((days_from_civil (year a) (month a) (day a) * 86400
           + hour a * 3600 + minute a * 60 + second a) * time.Second)
  else None.

#[export] Instance lib : GoLib := {|
  strings_ToLower := ToLower;
  time_Format := Format;
  time_ParseInLocation := Parse
|}.

End Sim.

(** ** Running the package *)

(** A machine with no files, nothing printed, no failing call. *)
Definition os0 (now : Time) : OS :=
  mkOS ∅ ∅ ∅ 1 (fun _ => false) [] now [].

(** The same machine on which the calls selected by [bad] fail. *)
Definition with_fails (bad : Syscall -> bool) (o : OS) : OS :=
  mkOS (names o) (data o) (files o) (next o) bad (stdout o) (clock o) (trace o).

(** What a path names. *)
Definition readFile (o : OS) (name : string) : option string :=
  ino ← names o !! name; data o !! ino.

(** 2022-03-25 20:24:24 UTC *)
Definition t_demo : Time := 1648239864 * time.Second.

Definition site_main : Caller := mkCaller "/home/dev/app/main.go" "main" "main" 11.

(** The events a computation adds to the trace. *)
Definition events_of {A} (m : M A) (o : OS) : list Event :=
  drop (length (trace o)) (trace (snd (m o))).

(** Logging the calls of a list one after the other, as one producer
    does. *)
Fixpoint log_all `{GoLib} (f : fileLogger)
    (calls : list (Level * string * option Caller)) : M fileLogger :=
  match calls with
  | [] => ret f
  | (lv, msg, site) :: rest =>
      f <- fileLogger_log f lv msg site ;;
      log_all f rest
  end.

(** The record [fileLogger.log] builds for a call at time [now]. *)
Definition record_of `{GoLib} (f : fileLogger) (now : Time)
    (call : Level * string * option Caller) : logMsg :=
  let '(lv, msg, site) := call in
  let ts := time_Format now (timeFormat f) in
  match site with
  | Some c =>
      mkLogMsg lv msg (nth 1 (GoStr.Split (FuncName c) ".") "")
        (path.Base (c_file c)) ts (c_line c)
  | None => mkLogMsg lv msg "" "" ts 0
  end.

(** What a call returned, if it did. *)
Definition returned {A} (r : Outcome A) : option A :=
  match r with
  | Ok a => Some a
  | _ => None
  end.

(** The file sink a call left in the logger it returned. *)
Definition FLogger_of (r : Outcome Log) : option fileLogger :=
  match r with
  | Ok l => FLogger l
  | _ => None
  end.

(** The five level names [s2L] knows. *)
Definition is_level_name (s : string) : Prop :=
  s = "debug" \/ s = "info" \/ s = "warn" \/ s = "error" \/ s = "fatal".

(** The file sink as [newFileLogger] makes it at [t_demo] on [os0], with a
    queue of capacity [n]. *)
Definition fl_demo (n : nat) : fileLogger :=
  {| level := defaultLevel;
     timeFormat := defaultTimeFormat;
     filePath := defaultFilePath;
     fileName := defaultFileName;
     maxFileSize := defaultMaxFileSize;
     logChan := mkChan [] n;
     fileObj := 1%nat;
     splitMode := SplitNone;
     duration := defaultDuration;
     startTime := periodAnchor t_demo defaultDuration;
     worker := WRunning |}.

(** The machine after that call: the log file exists, empty, and is open. *)
Definition os_demo : OS :=
  mkOS {[ "log/ALog.log" := 2%nat ]} {[ 2%nat := "" ]}
       {[ 1%nat := mkFile "log/ALog.log" 2 false ]} 3 (fun _ => false) []
       t_demo [EvMkdirAll "./log/"; EvOpenFile "log/ALog.log"].

Definition calls_demo : list (Level * string * option Caller) :=
  [(INFO, "first", Some site_main); (WARN, "second", Some site_main);
   (ERROR, "third", Some site_main)].

(** Scenarios of rotation on the demo machine: a sink that rotates every
    day, one that prints the time of day only, and one that rotates at ten
    bytes. *)
Definition fl_daily : fileLogger :=
  set_splitMode SplitBaseOnTime (fl_demo 8).


Definition fl_size : fileLogger :=
  set_maxFileSize 10 (set_splitMode SplitBaseOnSize (fl_demo 8)).

Definition msg_demo : logMsg :=
  mkLogMsg INFO "hello" "main" "main.go" "2022-03-25 20:24:24" 11.

Definition msg_clock : logMsg :=
  mkLogMsg INFO "hello" "main" "main.go" "20:24:24" 11.

(** The demo machine with sixteen bytes in the log file. *)
Definition os_big : OS := set_data {[ 2%nat := "0123456789abcdef" ]} os_demo.

Definition only (bad : Syscall) (s : Syscall) : bool :=
  match bad, s with
  | SysMkdirAll, SysMkdirAll | SysOpenFile, SysOpenFile | SysStat, SysStat
  | SysClose, SysClose | SysRename, SysRename | SysWrite, SysWrite => true
  | _, _ => false
  end.

(** The size [file.Stat()] would report, when it succeeds. *)
Definition stat_size (o : OS) (h : nat) : option Z :=
  match fst (file_Stat h o) with
  | Ok (Val fi) => Some (fi_size fi)
  | _ => None
  end.

(** At most one event, a write. *)
Definition only_a_write (evs : list Event) : Prop :=
  evs = [] \/ exists h s, evs = [EvWrite h s].

(** The line [writeIntoFile] prints for a record. *)
Definition file_line (m : logMsg) : string :=
  Sprintf_line (m_timeStamp m) (l2S (m_level m)) (m_funcName m) (m_fileName m)
    (m_line m) (m_msg m).

(** A session: both sinks, one call of [Info], one iteration of the
    worker. *)
Definition session_both `{GoLib} : M Log :=
  l <- SetBothMode New ;;
  l <- Log_Info l "hello" (Some site_main) ;;
  match FLogger l with
  | Some f =>
      f <- worker_step false false PickFirst f ;;
      ret (mkLog (CLogger l) (Some f) (isClose l))
  | None => ret l
  end.

(** A session that closes the logger and logs once more. *)
Definition session_closed `{GoLib} : M Log :=
  l <- SetBothMode New ;;
  l <- Log_Close l ;;
  Log_Info l "after close" (Some site_main).

(** ** Notions used by the further properties *)

(** [n] iterations of the worker goroutine with no close signal waiting and
    the timer not fired. *)
Fixpoint run_worker `{GoLib} (n : nat) (f : fileLogger) : M fileLogger :=
  match n with
  | O => ret f
  | S k =>
      f <- worker_step false false PickFirst f ;;
      run_worker k f
  end.

(** A string without the byte [.] *)
Fixpoint no_dot (s : string) : bool :=
  match s with
  | EmptyString => true
  | String c r => negb (Ascii.eqb c ".") && no_dot r
  end.

(** The configuration of a sink: what the setters store and the capacity of
    the queue. *)
Definition same_config (f f' : fileLogger) : Prop :=
  level f' = level f /\ timeFormat f' = timeFormat f
  /\ filePath f' = filePath f /\ fileName f' = fileName f
  /\ splitMode f' = splitMode f /\ maxFileSize f' = maxFileSize f
  /\ duration f' = duration f /\ cap (logChan f') = cap (logChan f).

(** The queue holds no more than its capacity. *)
Definition queue_ok (f : fileLogger) : Prop :=
  (length (buf (logChan f)) <= cap (logChan f))%nat.

(** The interval of the file sink of a logger, if it has one, is at least
    the ten minutes [SetSplitDuration] asks for. *)
Definition interval_ok (l : Log) : Prop :=
  forall f, FLogger l = Some f -> time.Minute * 10 <= duration f.

(** A function applied to what a call returns. *)
Definition omap {A B} (g : A -> B) (r : Outcome A) : Outcome B :=
  match r with
  | Ok a => Ok (g a)
  | Panic e => Panic e
  | Exit c => Exit c
  | Block => Block
  end.

(** The lines of the records of a list, one after the other. *)
Fixpoint lines_of (ms : list logMsg) : string :=
  match ms with
  | [] => ""
  | m :: r => file_line m +:+ lines_of r
  end.

(** The upper-case names of the five levels. *)
Definition level_names : list string :=
  ["DEBUG"; "INFO"; "WARN"; "ERROR"; "FATAL"].

(** The name stamp of the file that [splitFile] archives. *)
Definition stamp_of `{GoLib} (f : fileLogger) (mode : Z) (o : OS) : string :=
  if mode =? SplitBaseOnSize then time_Format (clock o) "20060102150405"
  else if mode =? SplitBaseOnTime then
    time_Format (startTime f) (suffixLayout (duration f))
  else "".

(** * Properties *)

Ltac run := unfold bind, ret, panic, os_Exit, block; simpl.

(** Case analysis on what the system calls of the goal meet. *)
Ltac os_cases :=
  repeat (simpl;
    match goal with
    | E : fails ?o ?s = _ |- context [fails ?o ?s] => rewrite E
    | E : files ?o !! ?h = _ |- context [files ?o !! ?h] => rewrite E
    | E : f_closed ?fl = _ |- context [f_closed ?fl] => rewrite E
    | |- context [if fails ?o ?s then _ else _] => destruct (fails o s) eqn:?
    | |- context [match names ?o !! ?k with _ => _ end] =>
        destruct (names o !! k) eqn:?
    | |- context [match files ?o !! ?h with _ => _ end] =>
        destruct (files o !! h) eqn:?
    | |- context [if f_closed ?fl then _ else _] =>
        destruct (f_closed fl) eqn:?
    | |- context [match @lookup _ _ (gmap _ _) _ ?k ?m with _ => _ end] =>
        destruct (m !! k) eqn:?
    end).

Ltac unfold_os :=
  unfold bind, time_Now, time_Sleep, file_Stat, file_Close, os_Rename,
    os_OpenFile, os_MkdirAll, fmt_Print, fmt_Fprint, ret, panic.

(** ** Level filtering *)

Section Filtering.
Context `{GoLib}.

Lemma fileLogger_log_disabled f lv msg site o :
  fileLogger_enable f lv = false -> fileLogger_log f lv msg site o = (Ok f, o).
Proof. intros E. unfold fileLogger_log. now rewrite E. Qed.

Lemma consoleLogger_log_disabled c lv msg site o :
  consoleLogger_enable c lv = false -> consoleLogger_log c lv msg site o = (Ok tt, o).
Proof. intros E. unfold consoleLogger_log. now rewrite E. Qed.

(** C8. With every sink of the logger at minimum level [L2], a log call at a
    level [L1 < L2] leaves the logger and the machine as they were: nothing
    is printed, no record is enqueued, no system call is made. *)
Theorem below_level_is_silent (L1 L2 : Level) (l : Log) (msg : string)
    (site : option Caller) (o : OS) :
  L1 < L2 ->
  (forall c, CLogger l = Some c -> c_level c = L2) ->
  (forall f, FLogger l = Some f -> level f = L2) ->
  Log_log L1 l msg site o = (Ok l, o).
Proof.
  intros Hlt Hc Hf. destruct l as [cl fl cls]; simpl in *.
  assert (Eoff : (L2 <=? L1) = false) by (apply Z.leb_gt; exact Hlt).
  unfold Log_log; simpl.
  destruct fl as [f|]; destruct cl as [c|]; destruct cls; run; try reflexivity.
  - rewrite fileLogger_log_disabled
      by (unfold fileLogger_enable; now rewrite (Hf f eq_refl)).
    simpl. rewrite consoleLogger_log_disabled
      by (unfold consoleLogger_enable; now rewrite (Hc c eq_refl)).
    reflexivity.
  - rewrite fileLogger_log_disabled
      by (unfold fileLogger_enable; now rewrite (Hf f eq_refl)).
    reflexivity.
  - rewrite consoleLogger_log_disabled
      by (unfold consoleLogger_enable; now rewrite (Hc c eq_refl)).
    reflexivity.
Qed.

End Filtering.

Lemma below_level_is_silent_witness :
  Log_log (H := Sim.lib) DEBUG
    (mkLog (Some (mkConsoleLogger WARN defaultTimeFormat)) None false)
    "hello" (Some site_main) (os0 t_demo)
  = (Ok (mkLog (Some (mkConsoleLogger WARN defaultTimeFormat)) None false),
     os0 t_demo).
Proof.
  apply (below_level_is_silent (H := Sim.lib) DEBUG WARN).
  - reflexivity.
  - intros c E. injection E as <-. reflexivity.
  - intros f E. discriminate E.
Defined.

(** ** Setting the level *)

Section Levels.
Context `{GoLib}.

Lemma s2L_invalid str :
  ~ is_level_name (strings_ToLower str) ->
  s2L str = (UNKNOWN, Some "无效的日志级别").
Proof.
  intros Hn. unfold s2L, is_level_name in *.
  repeat match goal with
  | |- context [String.eqb ?a ?b] =>
      destruct (String.eqb_spec a b); [exfalso; apply Hn; tauto|]
  end.
  reflexivity.
Qed.

(** C9. On a string that is none of the five level names in any casing,
    [SetLevel] panics after it has stored UNKNOWN in the level of every sink
    the logger has; UNKNOWN is 0, below DEBUG, and a sink at UNKNOWN lets
    every level through. Nothing else of the logger changes. *)
Theorem SetLevel_invalid_mutates (str : string) (l : Log) :
  ~ is_level_name (strings_ToLower str) ->
  SetLevel str l =
    (Panic "无效的日志级别",
     mkLog ((fun c => mkConsoleLogger UNKNOWN (c_timeFormat c)) <$> CLogger l)
           (set_level UNKNOWN <$> FLogger l) (isClose l))
  /\ UNKNOWN = 0 /\ UNKNOWN < DEBUG
  /\ (forall c lv, 0 <= lv -> consoleLogger_enable (mkConsoleLogger UNKNOWN c) lv = true)
  /\ (forall f lv, 0 <= lv -> fileLogger_enable (set_level UNKNOWN f) lv = true).
Proof.
  intros Hn. repeat split.
  - unfold SetLevel. rewrite (s2L_invalid _ Hn). reflexivity.
  - intros c lv Hlv. unfold consoleLogger_enable; simpl. now apply Z.leb_le.
  - intros f lv Hlv. unfold fileLogger_enable; simpl. now apply Z.leb_le.
Qed.

End Levels.

Lemma SetLevel_invalid_mutates_witness :
  SetLevel (H := Sim.lib) "Verbose" (mkLog (Some newConsoleLogger) None false)
  = (Panic "无效的日志级别",
     mkLog (Some (mkConsoleLogger UNKNOWN defaultTimeFormat)) None false).
Proof.
  apply (SetLevel_invalid_mutates (H := Sim.lib) "Verbose"
           (mkLog (Some newConsoleLogger) None false)).
  unfold is_level_name. vm_compute. intuition discriminate.
Defined.

(** ** The rotation interval *)

(** C7. An interval below ten minutes ends the configuration: the message
    is printed and the process exits with status 1, whatever the sinks of
    the logger. An interval of ten minutes or more is accepted: the call
    returns, and the file sink holds the interval together with the period
    start recomputed from the clock. *)
Theorem SetSplitDuration_minimum (l : Log) (d : Duration) (o : OS) :
  (d < time.Minute * 10 ->
   SetSplitDuration l d o =
     (Exit 1, set_stdout (stdout o ++ ["切割文件时间至少为10分钟" +:+ nl]) o))
  /\
  (time.Minute * 10 <= d ->
   SetSplitDuration l d o =
     (Ok (mkLog (CLogger l)
            ((fun f => set_startTime (periodAnchor (clock o) d) (set_duration d f))
               <$> FLogger l)
            (isClose l)), o)
   /\ forall f, FLogger l = Some f ->
      exists f', FLogger_of (fst (SetSplitDuration l d o)) = Some f'
        /\ duration f' = d
        /\ startTime f' = clock o - Z.rem (time.UnixNano (clock o)) d).
Proof.
  split; intros Hd; unfold SetSplitDuration; run.
  - destruct (Z.ltb_spec d (time.Minute * 10)); [reflexivity | lia].
  - destruct (Z.ltb_spec d (time.Minute * 10)); [lia |].
    destruct l as [cl [f|] cls]; simpl; (split; [reflexivity |]).
    + intros f0 E. injection E as <-. eexists. split; [reflexivity |].
      split; reflexivity.
    + intros f0 E. discriminate E.
Qed.

Lemma SetSplitDuration_minimum_witness :
  let l := mkLog None (Some (fl_demo 8)) false in
  fst (SetSplitDuration l (time.Minute * 5) os_demo) = Exit 1
  /\ exists f', FLogger_of (fst (SetSplitDuration l time.Hour os_demo)) = Some f'
       /\ duration f' = time.Hour
       /\ startTime f' = clock os_demo - Z.rem (time.UnixNano (clock os_demo)) time.Hour.
Proof.
  intros l. split.
  - rewrite (proj1 (SetSplitDuration_minimum l (time.Minute * 5) os_demo));
      [reflexivity | vm_compute; reflexivity].
  - apply (proj2 (proj2 (SetSplitDuration_minimum l time.Hour os_demo)
                    ltac:(vm_compute; discriminate)) (fl_demo 8)).
    reflexivity.
Defined.

(** ** The bounded queue *)

Section Queue.
Context `{GoLib}.

Lemma traceInfo_value site o :
  exists out,
    traceInfo site o =
      (Ok (match site with
           | Some c => (path.Base (c_file c),
                        nth 1 (GoStr.Split (FuncName c) ".") "", c_line c)
           | None => ("", "", 0)
           end), set_stdout (stdout o ++ out) o).
Proof.
  destruct site as [c|]; simpl.
  - exists []. destruct o; unfold set_stdout; simpl. now rewrite app_nil_r.
  - eexists. unfold bind, fmt_Print, ret. simpl. reflexivity.
Qed.

Lemma fileLogger_log_enabled f call o :
  fileLogger_enable f (fst (fst call)) = true ->
  exists out,
    fileLogger_log f (fst (fst call)) (snd (fst call)) (snd call) o =
      (Ok (match trySend (logChan f) (record_of f (clock o) call) with
           | Some c => set_logChan c f
           | None => f
           end), set_stdout (stdout o ++ out) o).
Proof.
  destruct call as [[lv msg] site]; simpl. intros E.
  unfold fileLogger_log. rewrite E.
  destruct (traceInfo_value site o) as [out Ht]. exists out.
  unfold bind at 1. unfold time_Now. unfold bind. rewrite Ht.
  destruct site as [c|]; simpl;
    destruct (trySend _ _); reflexivity.
Qed.

Lemma log_all_queue calls : forall b f o,
  (length b <= cap (logChan f))%nat ->
  buf (logChan f) = b ->
  Forall (fun c => fileLogger_enable f (fst (fst c)) = true) calls ->
  exists out,
    log_all f calls o =
      (Ok (set_logChan
             (mkChan (take (cap (logChan f))
                        (b ++ List.map (record_of f (clock o)) calls))
                     (cap (logChan f))) f),
       set_stdout (stdout o ++ out) o).
Proof.
  induction calls as [|call rest IH]; intros b f o Hb Eb Hen.
  - exists []. simpl. rewrite app_nil_r, firstn_all2 by exact Hb.
    destruct f as [? ? ? ? [bf cp] ? ? ? ? ? ?], o; simpl in *. subst.
    unfold ret, set_logChan, set_stdout; simpl. now rewrite app_nil_r.
  - inversion Hen as [|? ? Hc Hr]; subst.
    destruct (fileLogger_log_enabled f call o Hc) as [out1 E1].
    set (r := record_of f (clock o) call) in *.
    destruct call as [[lv msg] site]. cbn [fst snd] in E1. cbn [log_all].
    unfold bind. rewrite E1.
    unfold trySend.
    destruct (Nat.ltb_spec (length (buf (logChan f))) (cap (logChan f))) as [Hlt|Hge].
    + destruct (IH (buf (logChan f) ++ [r])
                  (set_logChan (mkChan (buf (logChan f) ++ [r]) (cap (logChan f))) f)
                  (set_stdout (stdout o ++ out1) o)) as [out2 E2].
      * simpl. rewrite length_app. simpl. lia.
      * reflexivity.
      * exact Hr.
      * exists (out1 ++ out2). rewrite E2. simpl.
        rewrite <- !app_assoc. simpl.
        destruct f, o; reflexivity.
    + destruct (IH (buf (logChan f)) f (set_stdout (stdout o ++ out1) o))
        as [out2 E2]; [exact Hb | reflexivity | exact Hr |].
      exists (out1 ++ out2). rewrite E2. simpl.
      assert (Hfull : length (buf (logChan f)) = cap (logChan f)) by lia.
      rewrite !firstn_app, Hfull, Nat.sub_diag. simpl.
      rewrite <- !app_assoc. destruct f, o; reflexivity.
Qed.

(** C5. A queue of capacity [N], empty at first, and [N + k] log calls at
    enabled levels with nobody receiving: every call returns (the model of
    [fileLogger.log] is a total function whose outcome is [Ok]), the queue
    ends with exactly the records of the first [N] calls, [k] records are in
    no queue, and the producer makes no system call and gets no error. *)
Theorem enqueue_drops_excess (N k : nat) (f : fileLogger)
    (calls : list (Level * string * option Caller)) (o : OS) :
  cap (logChan f) = N ->
  buf (logChan f) = [] ->
  length calls = (N + k)%nat ->
  Forall (fun c => fileLogger_enable f (fst (fst c)) = true) calls ->
  exists f' o',
    log_all f calls o = (Ok f', o')
    /\ buf (logChan f') = take N (List.map (record_of f (clock o)) calls)
    /\ length (buf (logChan f')) = N
    /\ (length calls - length (buf (logChan f')))%nat = k
    /\ cap (logChan f') = N
    /\ trace o' = trace o /\ names o' = names o /\ data o' = data o.
Proof.
  intros Hcap Hbuf Hlen Hen.
  destruct (log_all_queue calls [] f o) as [out E];
    [simpl; lia | exact Hbuf | exact Hen |].
  rewrite Hcap in E. simpl in E.
  eexists _, _. split; [exact E |]. simpl.
  assert (HN : length (take N (List.map (record_of f (clock o)) calls)) = N).
  { rewrite length_take, length_map, Hlen. lia. }
  repeat split; try reflexivity; try exact HN.
  rewrite HN, Hlen. lia.
Qed.

End Queue.

Lemma enqueue_drops_excess_witness :
  exists f' o',
    log_all (H := Sim.lib) (fl_demo 2) calls_demo os_demo = (Ok f', o')
    /\ buf (logChan f') =
         take 2 (List.map (record_of (H := Sim.lib) (fl_demo 2) (clock os_demo))
                   calls_demo)
    /\ length (buf (logChan f')) = 2%nat
    /\ (length calls_demo - length (buf (logChan f')))%nat = 1%nat
    /\ cap (logChan f') = 2%nat
    /\ trace o' = trace os_demo /\ names o' = names os_demo
    /\ data o' = data os_demo.
Proof.
  apply (enqueue_drops_excess (H := Sim.lib) 2 1 (fl_demo 2) calls_demo os_demo).
  - reflexivity.
  - reflexivity.
  - reflexivity.
  - repeat constructor.
Defined.

(** ** Rotation by time *)

Section ByTime.
Context `{GoLib}.






End ByTime.



(** The same through the interface of the package: file mode, rotation by
    time, the layout ["15:04:05"], one call of [Info] at 20:24:24 and one
    iteration of the worker. The line is in the log file and the period
    start is still midnight of 2022-03-25. *)
Example by_time_clock_layout_demo :
  let r :=
    (l <- SetFileMode New ;;
     let l := SetTimeFormat (SetSplitMode l SplitBaseOnTime) "15:04:05" in
     l <- Log_Info (H := Sim.lib) l "hello" (Some site_main) ;;
     match FLogger l with
     | Some f => worker_step (H := Sim.lib) false false PickFirst f
     | None => panic "no file sink"
     end)%go (os0 t_demo) in
  readFile (snd r) "log/ALog.log"
  = Some ("[20:24:24] [INFO] [main:main.go:11] hello" +:+ nl)
  /\ startTime <$> returned (fst r) = Some (1648166400 * time.Second)
  /\ Sim.Parse "15:04:05" "20:24:24" = Some (-62167145736 * time.Second).
Proof. vm_compute. repeat split; reflexivity. Qed.

(** ** I/O errors while the worker runs *)

Section RuntimeErrors.
Context `{GoLib}.

Lemma fmt_Fprint_effect h s o :
  exists r o', fmt_Fprint h s o = (Ok r, o')
    /\ stdout o' = stdout o /\ trace o' = trace o ++ [EvWrite h s]
    /\ fails o' = fails o /\ files o' = files o /\ names o' = names o
    /\ clock o' = clock o.
Proof.
  unfold fmt_Fprint. simpl. destruct (fails o SysWrite).
  { eexists _, _. split; [reflexivity |]. simpl. auto 10. }
  destruct (files o !! h) as [fl|].
  - destruct (f_closed fl); eexists _, _; (split; [reflexivity |]); simpl; auto 10.
  - eexists _, _. split; [reflexivity |]. simpl. auto 10.
Qed.

Lemma fmt_Fprint_failing h s o :
  fails o SysWrite = true ->
  fmt_Fprint h s o = (Ok (Err "write failed"), emit (EvWrite h s) o).
Proof. intros E. unfold fmt_Fprint. simpl. now rewrite E. Qed.

Lemma writeIntoFile_no_rotation f m o :
  (splitMode f =? SplitBaseOnTime)
    && checkTime f (default time.zero
                      (time_ParseInLocation (timeFormat f) (m_timeStamp m)))
  = false ->
  writeIntoFile f m o = (Ok f, snd (fmt_Fprint (fileObj f) (file_line m) o)).
Proof.
  intros E. unfold writeIntoFile, splitFileByTime. rewrite E.
  unfold bind, ret. fold (file_line m).
  destruct (fmt_Fprint_effect (fileObj f) (file_line m) o) as (r & o' & -> & _).
  reflexivity.
Qed.

Lemma splitFile_open_fails f h mode o fl :
  fails o SysStat = false ->
  files o !! h = Some fl -> f_closed fl = false ->
  fails o SysOpenFile = true ->
  exists o', splitFile f h mode o = (Ok (Err "open failed"), o')
    /\ stdout o' = stdout o ++ ["open new log file failed, err:open failed" +:+ nl].
Proof.
  intros Hs Hf Hc Ho. unfold splitFile. unfold_os.
  destruct (mode =? SplitBaseOnSize); [|destruct (mode =? SplitBaseOnTime)];
    os_cases; eexists; split; reflexivity.
Qed.

Lemma splitFile_stat_fails f h mode o :
  fails o SysStat = true ->
  exists o', splitFile f h mode o = (Ok (Err "stat failed"), o')
    /\ stdout o' = stdout o ++ ["get file info failed, err:stat failed" +:+ nl].
Proof.
  intros Hs. unfold splitFile. unfold_os.
  destruct (mode =? SplitBaseOnSize); [|destruct (mode =? SplitBaseOnTime)];
    os_cases; eexists; split; reflexivity.
Qed.

Lemma splitFileByTime_panics f t o e o' :
  splitMode f = SplitBaseOnTime -> checkTime f t = true -> duration f <> 0 ->
  splitFile f (fileObj f) SplitBaseOnTime o = (Ok (Err e), o') ->
  splitFileByTime f t o = (Panic e, o').
Proof.
  intros Hm Hc Hd Hs. unfold splitFileByTime.
  rewrite Hm, Z.eqb_refl, Hc. simpl. unfold bind. rewrite Hs.
  destruct (Z.eqb_spec (duration f) 0); [contradiction | reflexivity].
Qed.

Lemma size_mode_no_time_rotation f t :
  splitMode f = SplitBaseOnSize ->
  (splitMode f =? SplitBaseOnTime) && checkTime f t = false.
Proof. intros ->. reflexivity. Qed.

(** C3 (as the code has it). After startup, for a sink [f] on a machine
    [o]:
    - a record whose write fails is dropped without a word: nothing is
      printed and the worker goes on with the same sink and file object;
    - a size check whose stat fails is printed on standard output and the
      worker goes on, without rotating, on the same file object;
    - a rotation by size whose reopen fails prints the error on standard
      output and the worker panics;
    - a rotation by time whose stat or reopen fails prints the error on
      standard output and the worker panics. *)
Theorem runtime_io_errors (f : fileLogger) (o : OS) :
  (forall m,
     fails o SysWrite = true ->
     (splitMode f =? SplitBaseOnTime)
       && checkTime f (default time.zero
                         (time_ParseInLocation (timeFormat f) (m_timeStamp m)))
       = false ->
     writeIntoFile f m o = (Ok f, emit (EvWrite (fileObj f) (file_line m)) o))
  /\
  (forall closeReady pick,
     splitMode f = SplitBaseOnSize -> fails o SysStat = true ->
     exists f' o',
       writeLogBackground_iter closeReady pick f o = (Ok f', o')
       /\ fileObj f' = fileObj f
       /\ stdout o' = stdout o ++ ["get file info failed, err:stat failed" +:+ nl])
  /\
  (forall closeReady pick fl,
     splitMode f = SplitBaseOnSize -> fails o SysStat = false ->
     files o !! fileObj f = Some fl -> f_closed fl = false ->
     maxFileSize f <= Z.of_nat (String.length (contents o (f_ino fl))) ->
     fails o SysOpenFile = true ->
     exists o',
       writeLogBackground_iter closeReady pick f o = (Panic "open failed", o')
       /\ stdout o' = stdout o ++ ["open new log file failed, err:open failed" +:+ nl])
  /\
  (forall t,
     splitMode f = SplitBaseOnTime -> checkTime f t = true -> duration f <> 0 ->
     (fails o SysStat = true ->
      exists o',
        splitFileByTime f t o = (Panic "stat failed", o')
        /\ stdout o' = stdout o ++ ["get file info failed, err:stat failed" +:+ nl])
     /\
     (forall fl,
        fails o SysStat = false ->
        files o !! fileObj f = Some fl -> f_closed fl = false ->
        fails o SysOpenFile = true ->
        exists o',
          splitFileByTime f t o = (Panic "open failed", o')
          /\ stdout o' = stdout o
               ++ ["open new log file failed, err:open failed" +:+ nl])).
Proof.
  split; [|split; [|split]].
  - intros m Hw Hno. rewrite (writeIntoFile_no_rotation f m o Hno).
    now rewrite (fmt_Fprint_failing _ _ _ Hw).
  - intros cr pk Hm Hs. unfold writeLogBackground_iter, sizeRotation, selectOnce.
    rewrite Hm, Z.eqb_refl. unfold checkSize.
    unfold bind at 1. unfold bind at 1. unfold bind at 1.
    unfold file_Stat. simpl. rewrite Hs. unfold fmt_Print, ret. simpl.
    set (o1 := set_stdout _ _).
    destruct cr, (tryRecv (logChan f)) as [[m c]|], pk; simpl;
      try (eexists _, _; split; [reflexivity | split; reflexivity]).
    all: rewrite writeIntoFile_no_rotation
      by (apply size_mode_no_time_rotation; exact Hm).
    all: destruct (fmt_Fprint_effect (fileObj (set_logChan c f)) (file_line m) o1)
      as (r & o2 & E & Eout & _).
    all: rewrite E; eexists _, _; split; [reflexivity |];
      split; [reflexivity | exact Eout].
  - intros cr pk fl Hm Hs Hf Hc Hsz Ho.
    unfold writeLogBackground_iter, sizeRotation.
    rewrite Hm, Z.eqb_refl. unfold checkSize.
    unfold bind at 1. unfold bind at 1. unfold bind at 1.
    unfold file_Stat. simpl. rewrite Hs, Hf, Hc. unfold ret. simpl.
    destruct (Z.geb_spec (Z.of_nat (String.length (contents (emit (EvStat (fileObj f)) o)
                                       (f_ino fl)))) (maxFileSize f)) as [_|Hlt];
      [| unfold contents in *; simpl in Hlt; lia].
    destruct (splitFile_open_fails f (fileObj f) SplitBaseOnSize
                (emit (EvStat (fileObj f)) o) fl Hs Hf Hc Ho) as (o' & E & Eout).
    unfold bind. rewrite E. eexists. split; [reflexivity | exact Eout].
  - intros t Hm Hc Hd. split.
    + intros Hs. destruct (splitFile_stat_fails f (fileObj f) SplitBaseOnTime o Hs)
        as (o' & E & Eout).
      exists o'. split; [|exact Eout]. now apply splitFileByTime_panics.
    + intros fl Hs Hf Hcl Ho.
      destruct (splitFile_open_fails f (fileObj f) SplitBaseOnTime o fl Hs Hf Hcl Ho)
        as (o' & E & Eout).
      exists o'. split; [|exact Eout]. now apply splitFileByTime_panics.
Qed.

End RuntimeErrors.

Lemma runtime_io_errors_witness :
  writeIntoFile (H := Sim.lib) (fl_demo 8) msg_demo (with_fails (only SysWrite) os_demo)
  = (Ok (fl_demo 8),
     emit (EvWrite 1 (file_line msg_demo)) (with_fails (only SysWrite) os_demo))
  /\
  (exists o',
     writeLogBackground_iter (H := Sim.lib) false PickFirst fl_size
       (with_fails (only SysOpenFile) os_big) = (Panic "open failed", o')
     /\ stdout o' = stdout (with_fails (only SysOpenFile) os_big)
          ++ ["open new log file failed, err:open failed" +:+ nl]).
Proof.
  split.
  - apply (proj1 (runtime_io_errors (H := Sim.lib) (fl_demo 8)
                    (with_fails (only SysWrite) os_demo)) msg_demo);
      reflexivity.
  - apply (proj1 (proj2 (proj2 (runtime_io_errors (H := Sim.lib) fl_size
                    (with_fails (only SysOpenFile) os_big))))
             false PickFirst (mkFile "log/ALog.log" 2 false));
      try reflexivity.
    vm_compute. discriminate.
Defined.

(** C3 as stated fails: the log file has reached the size limit and the
    reopen of the rotation fails; the iteration of the worker ends in a
    panic, which ends the process. *)
Lemma rotation_error_panics :
  fst (worker_step (H := Sim.lib) false false PickFirst fl_size
         (with_fails (only SysOpenFile) os_big))
  = Panic "open failed".
Proof. vm_compute. reflexivity. Qed.

(** ** Rotation by size *)

Section SizeCheck.
Context `{GoLib}.

Lemma selectOnce_size_events f o closeReady pick :
  splitMode f = SplitBaseOnSize ->
  exists f' o' ws,
    selectOnce closeReady pick f o = (Ok f', o')
    /\ trace o' = trace o ++ ws /\ only_a_write ws.
Proof.
  intros Hm. unfold selectOnce.
  destruct closeReady, (tryRecv (logChan f)) as [[m c]|], pick; simpl.
  all: try (rewrite writeIntoFile_no_rotation
              by (apply size_mode_no_time_rotation; exact Hm);
            destruct (fmt_Fprint_effect (fileObj (set_logChan c f)) (file_line m) o)
              as (r & o2 & E & _ & Etr & _);
            rewrite E; eexists _, _, _; split; [reflexivity |];
            split; [exact Etr | right; eauto]).
  all: unfold_os; eexists _, _, []; (split; [reflexivity |]);
    simpl; rewrite app_nil_r; split; [reflexivity | now left].
Qed.

Lemma drain_size_events f o timerFired pick :
  splitMode f = SplitBaseOnSize ->
  only_a_write (events_of (drain_iter timerFired pick f) o).
Proof.
  intros Hm. unfold events_of, drain_iter.
  destruct (tryRecv (logChan f)) as [[m c]|], timerFired, pick; simpl.
  all: try (rewrite writeIntoFile_no_rotation
              by (apply size_mode_no_time_rotation; exact Hm);
            destruct (fmt_Fprint_effect (fileObj (set_logChan c f)) (file_line m) o)
              as (r & o2 & E & _ & Etr & _);
            rewrite E; simpl; rewrite Etr, drop_app_length; right; eauto).
  all: rewrite drop_all; now left.
Qed.

Lemma sizeRotation_not_due f o :
  splitMode f = SplitBaseOnSize ->
  match stat_size o (fileObj f) with
  | Some sz => sz < maxFileSize f
  | None => True
  end ->
  exists o1, sizeRotation f o = (Ok f, o1)
    /\ trace o1 = trace o ++ [EvStat (fileObj f)].
Proof.
  intros Hm. unfold sizeRotation, stat_size, checkSize. rewrite Hm, Z.eqb_refl.
  unfold_os. os_cases; intros Hsz;
    try (eexists; split; reflexivity).
  match goal with |- context [?a >=? ?b] => destruct (Z.geb_spec a b) end;
    [unfold contents in *; simpl in *; lia |].
  eexists; split; reflexivity.
Qed.

Lemma sizeRotation_due f o sz :
  splitMode f = SplitBaseOnSize ->
  stat_size o (fileObj f) = Some sz -> maxFileSize f <= sz ->
  exists old o1,
    trace o1 = trace o ++
      [EvStat (fileObj f); EvStat (fileObj f); EvClose (fileObj f);
       EvRename old (old +:+ "." +:+ time_Format (clock o) "20060102150405"
                         +:+ ".bak");
       EvOpenFile old]
    /\ ((exists e, sizeRotation f o = (Panic e, o1))
        \/ (exists newFile, sizeRotation f o = (Ok (set_fileObj newFile f), o1))).
Proof.
  intros Hm. unfold sizeRotation, stat_size, checkSize, splitFile.
  rewrite Hm, Z.eqb_refl. unfold_os.
  os_cases; intros Hsz Hge; try discriminate; injection Hsz as <-.
  all: match goal with |- context [?a >=? ?b] => destruct (Z.geb_spec a b) end;
    [| unfold contents in *; simpl in *; lia].
  all: os_cases.
  all: eexists _, _; split;
    [| first [left; eexists; reflexivity | right; eexists; reflexivity]].
  all: simpl; rewrite <- ?app_assoc; reflexivity.
Qed.

(** C6. In BY_SIZE mode the first system call of an iteration of the worker
    loop is the stat of the size check, made on the current file object.
    The calls of a rotation (its own stat, close, rename to the name stamped
    with the clock, reopen) follow exactly when that stat succeeded and
    reported a size of [maxFileSize] or more; otherwise there are none. In
    both cases the check and the rotation come before the record of this
    iteration is taken from the queue and written, and at most one record is
    written. An iteration of the loop entered after the close signal makes
    at most one write and no other call: no size check runs between its
    writes. *)
Theorem size_check_once_per_iteration (f : fileLogger) (o : OS)
    (closeReady : bool) (pick : Pick) :
  splitMode f = SplitBaseOnSize ->
  let h := fileObj f in
  let evs := events_of (writeLogBackground_iter closeReady pick f) o in
  (match stat_size o h with
   | Some sz =>
       if sz >=? maxFileSize f then
         exists old ws,
           evs = [EvStat h; EvStat h; EvClose h;
                  EvRename old (old +:+ "." +:+ time_Format (clock o) "20060102150405"
                                    +:+ ".bak");
                  EvOpenFile old] ++ ws
           /\ only_a_write ws
       else exists ws, evs = EvStat h :: ws /\ only_a_write ws
   | None => exists ws, evs = EvStat h :: ws /\ only_a_write ws
   end)
  /\ (forall timerFired pick',
        only_a_write (events_of (drain_iter timerFired pick' f) o)).
Proof.
  intros Hm h evs. split; [| intros; now apply drain_size_events].
  subst evs. unfold events_of, writeLogBackground_iter, bind.
  assert (Hskip :
    match stat_size o h with Some sz => sz < maxFileSize f | None => True end ->
    exists ws, drop (length (trace o))
      (trace (let (o0, o') := sizeRotation f o in
         match o0 with
         | Ok a => selectOnce closeReady pick a o'
         | Panic e => (Panic e, o')
         | Exit c => (Exit c, o')
         | Block => (Block, o')
         end).2) = EvStat h :: ws /\ only_a_write ws).
  { intros Hlt. destruct (sizeRotation_not_due f o Hm Hlt) as (o1 & -> & Etr).
    destruct (selectOnce_size_events f o1 closeReady pick Hm)
      as (f' & o' & ws & -> & Etr' & Hws).
    exists ws. simpl. rewrite Etr', Etr, <- app_assoc, drop_app_length. auto. }
  destruct (stat_size o h) as [sz|] eqn:Es; [| now apply Hskip].
  destruct (Z.geb_spec sz (maxFileSize f)) as [Hge|Hlt]; [| now apply Hskip].
  clear Hskip.
  destruct (sizeRotation_due f o sz Hm Es Hge)
    as (old & o1 & Etr & [[e ->] | [newFile ->]]).
  - exists old, []. simpl. rewrite Etr, drop_app_length. split; [reflexivity | now left].
  - destruct (selectOnce_size_events (set_fileObj newFile f) o1 closeReady pick Hm)
      as (f' & o' & ws & -> & Etr' & Hws).
    exists old, ws. simpl. rewrite Etr', Etr, <- app_assoc, drop_app_length. auto.
Qed.
End SizeCheck.

Lemma size_check_once_per_iteration_witness :
  let h := fileObj fl_size in
  let evs := events_of (writeLogBackground_iter (H := Sim.lib) false PickFirst fl_size)
               os_big in
  (match stat_size os_big h with
   | Some sz =>
       if sz >=? maxFileSize fl_size then
         exists old ws,
           evs = [EvStat h; EvStat h; EvClose h;
                  EvRename old
                    (old +:+ "." +:+ Sim.Format (clock os_big) "20060102150405"
                         +:+ ".bak");
                  EvOpenFile old] ++ ws
           /\ only_a_write ws
       else exists ws, evs = EvStat h :: ws /\ only_a_write ws
   | None => exists ws, evs = EvStat h :: ws /\ only_a_write ws
   end)
  /\ (forall timerFired pick',
        only_a_write (events_of (drain_iter (H := Sim.lib) timerFired pick' fl_size)
                        os_big)).
Proof.
  apply (size_check_once_per_iteration (H := Sim.lib) fl_size os_big false PickFirst).
  reflexivity.
Defined.

(** The rotation at work: sixteen bytes against a limit of ten. The old
    file goes to a name stamped with the clock, the record in the queue
    goes to a new, empty file. *)
Example rotation_by_size_demo :
  let f := set_logChan (mkChan [msg_demo] 8) fl_size in
  let o' := snd (worker_step (H := Sim.lib) false false PickFirst f os_big) in
  readFile o' "log/ALog.log.20220325202424.bak" = Some "0123456789abcdef"
  /\ readFile o' "log/ALog.log" = Some (file_line msg_demo).
Proof. vm_compute. split; reflexivity. Qed.

(** ** Where the file sink writes *)

Section ActiveFile.
Context `{GoLib}.

Lemma default_path : path.Join defaultFilePath defaultFileName = "log/ALog.log".
Proof. reflexivity. Qed.

Lemma newFileLogger_opens o :
  fails o SysMkdirAll = false -> fails o SysOpenFile = false ->
  exists f o1 ino,
    newFileLogger o = (Ok f, o1)
    /\ trace o1 = trace o ++ [EvMkdirAll "./log/"; EvOpenFile "log/ALog.log"]
    /\ files o1 !! fileObj f = Some (mkFile "log/ALog.log" ino false)
    /\ names o1 !! "log/ALog.log" = Some ino
    /\ worker f = WRunning /\ splitMode f = SplitNone
    /\ filePath f = defaultFilePath /\ fileName f = defaultFileName
    /\ fails o1 = fails o /\ stdout o1 = stdout o.
Proof.
  intros Hm Ho. unfold newFileLogger, initFile. unfold_os.
  change (path.Join (filePath _) (fileName _)) with "log/ALog.log".
  os_cases.
  - eexists _, _, _. split; [reflexivity |]. simpl.
    rewrite <- app_assoc, lookup_insert_eq. auto 12.
  - eexists _, _, _. split; [reflexivity |]. simpl.
    rewrite <- app_assoc, !lookup_insert_eq. auto 12.
Qed.

Lemma fmt_Fprint_appends h s o nm ino :
  files o !! h = Some (mkFile nm ino false) -> fails o SysWrite = false ->
  exists o', fmt_Fprint h s o = (Ok (Val tt), o')
    /\ contents o' ino = contents o ino +:+ s
    /\ names o' = names o /\ files o' = files o
    /\ trace o' = trace o ++ [EvWrite h s].
Proof.
  intros Hf Hw. unfold fmt_Fprint. simpl. rewrite Hw, Hf. simpl.
  eexists. split; [reflexivity |]. unfold contents. simpl.
  rewrite lookup_insert_eq. auto.
Qed.

(** C10. [SetFileMode] and [SetBothMode], when the directory and the file
    can be made, open the log file at the default path, [./log/ALog.log]
    (cleaned: [log/ALog.log]), at once and start the worker. [SetFilePath]
    and [SetFileName] afterwards store the new path fields and nothing more:
    the file object of the sink is the one opened at the default path, and
    the next record the worker writes is appended to the file of that
    name. *)
Theorem path_setters_keep_the_open_file (setMode : Log -> M Log) (l : Log)
    (o : OS) (p n : string) :
  setMode = SetFileMode \/ setMode = SetBothMode ->
  fails o SysMkdirAll = false -> fails o SysOpenFile = false ->
  exists l1 o1 f ino,
    setMode l o = (Ok l1, o1) /\ FLogger l1 = Some f
    /\ path.Join defaultFilePath defaultFileName = "log/ALog.log"
    /\ events_of (setMode l) o = [EvMkdirAll "./log/"; EvOpenFile "log/ALog.log"]
    /\ files o1 !! fileObj f = Some (mkFile "log/ALog.log" ino false)
    /\ names o1 !! "log/ALog.log" = Some ino
    /\ worker f = WRunning
    /\ FLogger (SetFilePath l1 p) = Some (set_filePath p f)
    /\ FLogger (SetFileName l1 n) = Some (set_fileName n f)
    /\ forall f2 m,
         f2 = set_filePath p f \/ f2 = set_fileName n f
           \/ f2 = set_fileName n (set_filePath p f) ->
         fileObj f2 = fileObj f /\ worker f2 = WRunning
         /\ (fails o SysWrite = false ->
             exists o2,
               writeIntoFile f2 m o1 = (Ok f2, o2)
               /\ events_of (writeIntoFile f2 m) o1 = [EvWrite (fileObj f) (file_line m)]
               /\ names o2 = names o1
               /\ contents o2 ino = contents o1 ino +:+ file_line m).
Proof.
  intros Hmode Hm Ho.
  destruct (newFileLogger_opens o Hm Ho)
    as (f & o1 & ino & En & Etr & Hfile & Hname & Hw & Hsm & Hfp & Hfn & Hfl & Hout).
  assert (Hset : exists l1, setMode l o = (Ok l1, o1) /\ FLogger l1 = Some f).
  { destruct Hmode as [-> | ->]; unfold SetFileMode, SetBothMode, bind;
      rewrite En; eexists; split; reflexivity. }
  destruct Hset as (l1 & El & HF).
  exists l1, o1, f, ino. split; [exact El |]. split; [exact HF |].
  split; [reflexivity |].
  split. { unfold events_of. rewrite El. simpl. now rewrite Etr, drop_app_length. }
  split; [exact Hfile |]. split; [exact Hname |]. split; [exact Hw |].
  split. { unfold SetFilePath. simpl. now rewrite HF. }
  split. { unfold SetFileName. simpl. now rewrite HF. }
  intros f2 m Hf2.
  assert (Hobj : fileObj f2 = fileObj f /\ worker f2 = worker f
                 /\ splitMode f2 = splitMode f).
  { destruct Hf2 as [-> | [-> | ->]]; auto. }
  destruct Hobj as (Eobj & Ewk & Esm).
  split; [exact Eobj |]. split; [congruence |].
  intros Hwr.
  assert (Hno : (splitMode f2 =? SplitBaseOnTime)
                && checkTime f2 (default time.zero
                     (time_ParseInLocation (timeFormat f2) (m_timeStamp m))) = false).
  { rewrite Esm, Hsm. reflexivity. }
  rewrite (writeIntoFile_no_rotation f2 m o1 Hno). rewrite Eobj.
  destruct (fmt_Fprint_appends (fileObj f) (file_line m) o1 _ _ Hfile)
    as (o2 & Ew & Hc & Hn & _ & Etr2); [congruence |].
  exists o2. unfold events_of.
  rewrite (writeIntoFile_no_rotation f2 m o1 Hno), Eobj, Ew. simpl.
  split; [reflexivity |]. split; [now rewrite Etr2, drop_app_length |]. auto.
Qed.

End ActiveFile.

Lemma path_setters_keep_the_open_file_witness :
  exists l1 o1 f ino,
    SetFileMode New (os0 t_demo) = (Ok l1, o1) /\ FLogger l1 = Some f
    /\ path.Join defaultFilePath defaultFileName = "log/ALog.log"
    /\ events_of (SetFileMode New) (os0 t_demo)
       = [EvMkdirAll "./log/"; EvOpenFile "log/ALog.log"]
    /\ files o1 !! fileObj f = Some (mkFile "log/ALog.log" ino false)
    /\ names o1 !! "log/ALog.log" = Some ino
    /\ worker f = WRunning
    /\ FLogger (SetFilePath l1 "/var/log/app/") = Some (set_filePath "/var/log/app/" f)
    /\ FLogger (SetFileName l1 "app.log") = Some (set_fileName "app.log" f)
    /\ forall f2 m,
         f2 = set_filePath "/var/log/app/" f \/ f2 = set_fileName "app.log" f
           \/ f2 = set_fileName "app.log" (set_filePath "/var/log/app/" f) ->
         fileObj f2 = fileObj f /\ worker f2 = WRunning
         /\ (fails (os0 t_demo) SysWrite = false ->
             exists o2,
               writeIntoFile (H := Sim.lib) f2 m o1 = (Ok f2, o2)
               /\ events_of (writeIntoFile (H := Sim.lib) f2 m) o1
                  = [EvWrite (fileObj f) (file_line m)]
               /\ names o2 = names o1
               /\ contents o2 ino = contents o1 ino +:+ file_line m).
Proof.
  apply (path_setters_keep_the_open_file (H := Sim.lib) SetFileMode New
           (os0 t_demo) "/var/log/app/" "app.log").
  - left. reflexivity.
  - reflexivity.
  - reflexivity.
Defined.

(** The path fields changed, the file did not: after [SetFilePath] and
    [SetFileName] the record still lands in [log/ALog.log], and no file of
    the new name exists. *)
Example path_setters_demo :
  let r :=
    (l <- SetFileMode New ;;
     let l := SetFileName (SetFilePath l "/var/log/app/") "app.log" in
     l <- Log_Info (H := Sim.lib) l "hello" (Some site_main) ;;
     match FLogger l with
     | Some f => worker_step (H := Sim.lib) false false PickFirst f
     | None => panic "no file sink"
     end)%go (os0 t_demo) in
  readFile (snd r) "log/ALog.log"
  = Some ("[2022-03-25 20:24:24] [INFO] [main:main.go:11] hello" +:+ nl)
  /\ readFile (snd r) "/var/log/app/app.log" = None.
Proof. vm_compute. split; reflexivity. Qed.

(** ** The call-site segment of the two sinks *)

(** C1, on the code. One call of [Info] from [main] in [main.go], line 11,
    with both sinks: the console prints the call site as file, function,
    line; the file sink writes function, file, line. *)
Theorem file_sink_swaps_call_site :
  (forall `{GoLib} f now lv msg c,
     file_line (record_of f now (lv, msg, Some c))
     = Sprintf_line (time_Format now (timeFormat f)) (l2S lv)
         (nth 1 (GoStr.Split (FuncName c) ".") "") (path.Base (c_file c))
         (c_line c) msg)
  /\ stdout (snd (session_both (H := Sim.lib) (os0 t_demo)))
     = ["[2022-03-25 20:24:24] [INFO] [main.go:main:11] hello" +:+ nl]
  /\ readFile (snd (session_both (H := Sim.lib) (os0 t_demo))) "log/ALog.log"
     = Some ("[2022-03-25 20:24:24] [INFO] [main:main.go:11] hello" +:+ nl).
Proof.
  split; [intros; reflexivity |]. vm_compute. split; reflexivity.
Qed.

(** ** Closing *)

Section Closing.
Context `{GoLib}.

(** The guard of the log methods does its work once the flag is set, as the
    signal handler sets it. *)
Lemma closed_flag_silences lv l msg site o :
  isClose l = true -> Log_log lv l msg site o = (Ok l, o).
Proof.
  intros E. unfold Log_log. destruct l as [[c|] [f|] cls]; simpl in *; subst;
    reflexivity.
Qed.

(** [Log.Close] does not set the flag. *)
Lemma Log_Close_keeps_flag l o l' o' :
  Log_Close l o = (Ok l', o') -> isClose l' = isClose l.
Proof.
  unfold Log_Close. destruct (FLogger l) as [f|].
  - unfold bind. destruct (fileLogger_Close f o) as [[f'| | |] o1];
      try discriminate.
    unfold ret. intros E. injection E as <- <-. reflexivity.
  - unfold ret. intros E. injection E as <- <-. reflexivity.
Qed.

End Closing.

(** C2, on the code. After [Close] the file object is closed and the worker
    has left its main loop, but the flag that guards the log methods is
    still unset: a call of [Info] prints its line and puts its record in the
    queue. *)
Theorem log_after_Close_still_logs :
  let r := session_closed (H := Sim.lib) (os0 t_demo) in
  isClose <$> returned (fst r) = Some false
  /\ stdout (snd r)
     = ["[2022-03-25 20:24:24] [INFO] [main.go:main:11] after close" +:+ nl]
  /\ worker <$> FLogger_of (fst r) = Some WDraining
  /\ (fun f => List.map m_msg (buf (logChan f))) <$> FLogger_of (fst r)
     = Some ["after close"]
  /\ (FLogger_of (fst r) ≫= fun f => f_closed <$> files (snd r) !! fileObj f)
     = Some true.
Proof. vm_compute. repeat split; reflexivity. Qed.

(** ** Further properties: level names *)

Section LevelNames.
Context `{GoLib}.

Lemma s2L_range str :
  let '(lv, err) := s2L str in
  (err = None <-> DEBUG <= lv <= FATAL) /\ (err <> None <-> lv = UNKNOWN).
Proof.
  unfold s2L.
  repeat match goal with
  | |- context [String.eqb ?a ?b] => destruct (String.eqb a b)
  end; unfold UNKNOWN, DEBUG, INFO, WARN, ERROR, FATAL;
    (split; split; intros; try lia; try congruence; try discriminate).
Qed.

(** The name [l2S] gives to one of the five levels is read back by [s2L] as
    that level, without error, when [strings.ToLower] lowers the five
    upper-case names as it lowers ASCII; the name of any other level,
    UNKNOWN, is refused. *)
Theorem s2L_l2S_round_trip (lv : Level) :
  (forall s, In s ("UNKNOWN" :: level_names) -> strings_ToLower s = Sim.ToLower s) ->
  (DEBUG <= lv <= FATAL -> s2L (l2S lv) = (lv, None))
  /\ (~ DEBUG <= lv <= FATAL ->
      l2S lv = "UNKNOWN" /\ s2L (l2S lv) = (UNKNOWN, Some "无效的日志级别")).
Proof.
  intros Hlow. split.
  - intros Hr. unfold DEBUG, FATAL in Hr.
    assert (Hc : lv = 1 \/ lv = 2 \/ lv = 3 \/ lv = 4 \/ lv = 5) by lia.
    destruct Hc as [-> | [-> | [-> | [-> | ->]]]]; unfold s2L; simpl l2S;
      rewrite Hlow by (simpl; tauto); reflexivity.
  - intros Hn. assert (El : l2S lv = "UNKNOWN").
    { unfold l2S, DEBUG, INFO, WARN, ERROR, FATAL in *.
      repeat match goal with
      | |- context [?a =? ?b] => destruct (Z.eqb_spec a b); [lia |]
      end. reflexivity. }
    split; [exact El |]. rewrite El. unfold s2L.
    rewrite Hlow by (simpl; tauto). reflexivity.
Qed.

(** [SetLevel] on a string that lowers to one of the five names returns, and
    every sink of the logger then has the level of that name; the time
    layouts, the rest of the file sink and the closed flag are as before. *)
Theorem SetLevel_valid (str : string) (l : Log) :
  is_level_name (strings_ToLower str) ->
  exists lv,
    SetLevel str l =
      (Ok tt,
       mkLog ((fun c => mkConsoleLogger lv (c_timeFormat c)) <$> CLogger l)
             (set_level lv <$> FLogger l) (isClose l))
    /\ DEBUG <= lv <= FATAL
    /\ Sim.ToLower (l2S lv) = strings_ToLower str.
Proof.
  unfold is_level_name, SetLevel, s2L.
  intros [E | [E | [E | [E | E]]]]; rewrite E; simpl;
    eexists; (split; [reflexivity |]);
    unfold DEBUG, INFO, WARN, ERROR, FATAL; split; (lia || reflexivity).
Qed.

End LevelNames.

Lemma s2L_l2S_round_trip_witness :
  s2L (H := Sim.lib) (l2S WARN) = (WARN, None)
  /\ s2L (H := Sim.lib) (l2S 9) = (UNKNOWN, Some "无效的日志级别").
Proof.
  split.
  - apply (proj1 (s2L_l2S_round_trip (H := Sim.lib) WARN (fun s _ => eq_refl))).
    vm_compute. split; discriminate.
  - apply (proj2 (s2L_l2S_round_trip (H := Sim.lib) 9 (fun s _ => eq_refl))).
    vm_compute. intros [_ Hc]. apply Hc. reflexivity.
Defined.

Lemma SetLevel_valid_witness :
  exists lv,
    SetLevel (H := Sim.lib) "Warn" New =
      (Ok tt,
       mkLog ((fun c => mkConsoleLogger lv (c_timeFormat c)) <$> CLogger New)
             (set_level lv <$> FLogger New) (isClose New))
    /\ DEBUG <= lv <= FATAL
    /\ Sim.ToLower (l2S lv) = strings_ToLower (GoLib := Sim.lib) "Warn".
Proof.
  apply (SetLevel_valid (H := Sim.lib) "Warn" New).
  unfold is_level_name. vm_compute. tauto.
Defined.

(** ** Further properties: the call site *)

Lemma append_cons c s t : String c s +:+ t = String c (s +:+ t).
Proof. reflexivity. Qed.

Lemma append_nil_r s : s +:+ "" = s.
Proof.
  induction s as [|c s IH]; [reflexivity |]. now rewrite append_cons, IH.
Qed.

Lemma append_assoc s t u : (s +:+ t) +:+ u = s +:+ (t +:+ u).
Proof.
  induction s as [|c s IH]; [reflexivity |]. now rewrite !append_cons, IH.
Qed.

Lemma rev_app_append s : forall t,
  String.rev_app s t = String.rev_app s "" +:+ t.
Proof.
  induction s as [|c s IH]; intros t; [reflexivity |]. simpl.
  rewrite (IH (String c t)), (IH (String c "")), append_assoc. reflexivity.
Qed.

Lemma rev_cons c acc : String.rev (String c acc) = String.rev acc +:+ String c "".
Proof. unfold String.rev. simpl. apply rev_app_append. Qed.

Lemma split_on_no_dot a : forall acc,
  no_dot a = true ->
  GoStr.split_on "." acc a = [String.rev acc +:+ a].
Proof.
  induction a as [|c a IH]; intros acc Hn.
  - simpl. now rewrite append_nil_r.
  - simpl in Hn. apply andb_prop in Hn as [Hc Ha]. apply negb_true_iff in Hc.
    simpl. rewrite Hc, IH by exact Ha.
    now rewrite rev_cons, append_assoc.
Qed.

Lemma split_on_first_dot a b : forall acc,
  no_dot a = true ->
  GoStr.split_on "." acc (a +:+ "." +:+ b)
  = (String.rev acc +:+ a) :: GoStr.split_on "." "" b.
Proof.
  induction a as [|c a IH]; intros acc Hn.
  - change ("" +:+ "." +:+ b) with (String "." b). simpl.
    now rewrite append_nil_r.
  - simpl in Hn. apply andb_prop in Hn as [Hc Ha]. apply negb_true_iff in Hc.
    rewrite append_cons. simpl. rewrite Hc, IH by exact Ha.
    now rewrite rev_cons, append_assoc.
Qed.

(** [traceInfo] reports the base name of the source file, the line, and as
    function name the second dot-separated piece of the qualified name. For a
    package path without a dot and a name without a dot that is the name of
    the function; for a package path with a dot (an import path with a host
    name, [host.tld/dir]) it is the piece of the path after the first dot,
    not the function. Nothing is printed and the machine is unchanged. *)
Theorem traceInfo_function_name (c : Caller) (o : OS) :
  (no_dot (c_pkg c) = true -> no_dot (c_name c) = true ->
   traceInfo (Some c) o = (Ok (path.Base (c_file c), c_name c, c_line c), o))
  /\ (forall host rest,
        c_pkg c = host +:+ "." +:+ rest ->
        no_dot host = true -> no_dot rest = true ->
        traceInfo (Some c) o = (Ok (path.Base (c_file c), rest, c_line c), o)).
Proof.
  unfold traceInfo, ret, FuncName, GoStr.Split. split.
  - intros Hp Hn. rewrite (split_on_first_dot _ _ "" Hp).
    rewrite (split_on_no_dot _ "" Hn). reflexivity.
  - intros host rest E Hh Hr. rewrite E, !append_assoc.
    rewrite (split_on_first_dot _ _ "" Hh).
    change ("." +:+ c_name c) with ("" +:+ "." +:+ c_name c).
    rewrite <- append_assoc, append_nil_r.
    rewrite (split_on_first_dot _ _ "" Hr). reflexivity.
Qed.

Lemma traceInfo_function_name_witness :
  traceInfo (Some site_main) os_demo
  = (Ok ("main.go", "main", 11), os_demo)
  /\ traceInfo (Some (mkCaller "/src/app/run.go" "example.com/app" "Run" 7)) os_demo
     = (Ok ("run.go", "com/app", 7), os_demo).
Proof.
  split.
  - apply (proj1 (traceInfo_function_name site_main os_demo)); reflexivity.
  - apply (proj2 (traceInfo_function_name
                    (mkCaller "/src/app/run.go" "example.com/app" "Run" 7) os_demo)
             "example" "com/app"); reflexivity.
Defined.

(** ** Further properties: the period start *)

Lemma periodAnchor_aligned now d :
  0 <= now < 2 ^ 63 -> 0 < d ->
  periodAnchor now d <= now < periodAnchor now d + d
  /\ periodAnchor now d mod d = 0.
Proof.
  intros Hn Hd. unfold periodAnchor, time.Add, time.UnixNano, time.wrap64.
  rewrite (Z.mod_small (now + 2 ^ 63) (2 ^ 64)) by lia.
  replace (now + 2 ^ 63 - 2 ^ 63) with now by lia.
  rewrite Z.rem_mod_nonneg by lia.
  pose proof (Z.mod_pos_bound now d Hd).
  split; [lia |].
  replace (now + - (now mod d)) with (d * (now / d))
    by (pose proof (Z.div_mod now d); lia).
  rewrite Z.mul_comm. apply Z.mod_mul. lia.
Qed.

(** With the clock between 1970 and 2262, the period start that
    [newFileLogger] computes, and the one [SetSplitDuration] stores with an
    accepted interval, is a multiple of the interval (counted from the Unix
    epoch, in UTC) and the period that starts there contains the present
    instant. *)
Theorem period_start_contains_now (o : OS) :
  0 <= clock o < 2 ^ 63 ->
  (forall f o', newFileLogger o = (Ok f, o') ->
     duration f = time.Hour * 24
     /\ startTime f <= clock o < startTime f + duration f
     /\ startTime f mod duration f = 0)
  /\
  (forall l d l' o' f', SetSplitDuration l d o = (Ok l', o') ->
     FLogger l' = Some f' -> FLogger l <> None ->
     duration f' = d
     /\ startTime f' <= clock o < startTime f' + duration f'
     /\ startTime f' mod duration f' = 0).
Proof.
  intros Hc. split.
  - intros f o'. unfold newFileLogger, initFile. unfold_os. os_cases;
      intros E; try discriminate; injection E as <- <-; simpl;
      (split; [reflexivity |]);
      exact (periodAnchor_aligned (clock o) defaultDuration Hc eq_refl).
  - intros l d l' o' f' E EF Hsome. unfold SetSplitDuration in E.
    unfold bind, fmt_Print, os_Exit, time_Now, ret in E.
    destruct (Z.ltb_spec d (time.Minute * 10)) as [|Hd]; [discriminate |].
    destruct (FLogger l) as [f|]; [| contradiction].
    injection E as <- <-. simpl in EF. injection EF as <-. simpl.
    split; [reflexivity |].
    refine (periodAnchor_aligned (clock o) d Hc _).
    unfold time.Minute, time.Second in Hd. lia.
Qed.

Lemma period_start_contains_now_witness :
  duration (fl_demo defaultMaxChanSize) = time.Hour * 24
  /\ startTime (fl_demo defaultMaxChanSize) <= clock (os0 t_demo)
       < startTime (fl_demo defaultMaxChanSize) + duration (fl_demo defaultMaxChanSize)
  /\ startTime (fl_demo defaultMaxChanSize) mod duration (fl_demo defaultMaxChanSize) = 0.
Proof.
  apply (proj1 (period_start_contains_now (os0 t_demo)
                  ltac:(vm_compute; split; [discriminate | reflexivity]))
           (fl_demo defaultMaxChanSize) os_demo).
  reflexivity.
Defined.

(** ** Further properties: what the worker and the producers leave alone *)

Section Frames.
Context `{GoLib}.

Lemma same_config_refl f : same_config f f.
Proof. unfold same_config. auto 10. Qed.

Lemma same_config_trans f g h :
  same_config f g -> same_config g h -> same_config f h.
Proof. unfold same_config. intuition congruence. Qed.

Lemma splitFileByTime_config f t o f' o' :
  splitFileByTime f t o = (Ok f', o') ->
  same_config f f' /\ logChan f' = logChan f /\ worker f' = worker f.
Proof.
  unfold splitFileByTime.
  destruct ((splitMode f =? SplitBaseOnTime) && checkTime f t).
  - unfold bind.
    destruct (splitFile f (fileObj f) SplitBaseOnTime o) as [[r| | |] o2];
      try discriminate.
    destruct (duration f =? 0); [discriminate |].
    destruct r as [h|e]; [|discriminate].
    unfold ret. intros E. injection E as <- <-.
    destruct (_ =? 0); unfold same_config; simpl; auto 10.
  - unfold ret. intros E. injection E as <- <-.
    split; [apply same_config_refl | auto].
Qed.

Lemma writeIntoFile_config f m o f' o' :
  writeIntoFile f m o = (Ok f', o') ->
  same_config f f' /\ logChan f' = logChan f /\ worker f' = worker f.
Proof.
  unfold writeIntoFile, bind.
  destruct (splitFileByTime f _ o) as [[f1| | |] o1] eqn:Es; try discriminate.
  destruct (fmt_Fprint_effect (fileObj f1)
              (Sprintf_line (m_timeStamp m) (l2S (m_level m)) (m_funcName m)
                 (m_fileName m) (m_line m) (m_msg m)) o1) as (r & o2 & -> & _).
  unfold ret. intros E. injection E as <- <-.
  exact (splitFileByTime_config _ _ _ _ _ Es).
Qed.

Lemma sizeRotation_config f o f' o' :
  sizeRotation f o = (Ok f', o') ->
  same_config f f' /\ logChan f' = logChan f /\ worker f' = worker f
  /\ startTime f' = startTime f.
Proof.
  unfold sizeRotation. destruct (splitMode f =? SplitBaseOnSize).
  - unfold bind. destruct (checkSize f (fileObj f) o) as [[[|]| | |] o1];
      try discriminate.
    + destruct (splitFile f (fileObj f) SplitBaseOnSize o1) as [[[h|e]| | |] o2];
        try discriminate.
      unfold ret. intros E. injection E as <- <-.
      unfold same_config; simpl; auto 10.
    + unfold ret. intros E. injection E as <- <-.
      split; [apply same_config_refl | auto].
  - unfold ret. intros E. injection E as <- <-.
    split; [apply same_config_refl | auto].
Qed.

Lemma tryRecv_some {A} (c c' : chan A) x :
  tryRecv c = Some (x, c') -> buf c = x :: buf c' /\ cap c' = cap c.
Proof.
  unfold tryRecv. destruct (buf c) as [|y r]; [discriminate |].
  intros E. injection E as <- <-. auto.
Qed.

Lemma selectOnce_frame closeReady pick f o f' o' :
  selectOnce closeReady pick f o = (Ok f', o') ->
  same_config f f'
  /\ (buf (logChan f') = buf (logChan f)
      \/ exists m, buf (logChan f) = m :: buf (logChan f'))
  /\ (worker f' = worker f \/ (closeReady = true /\ worker f' = WDraining)).
Proof.
  unfold selectOnce.
  destruct (tryRecv (logChan f)) as [[m c]|] eqn:Er.
  - apply tryRecv_some in Er as [Eb Ec].
    assert (Hw : writeIntoFile (set_logChan c f) m o = (Ok f', o') ->
              same_config f f'
              /\ (buf (logChan f') = buf (logChan f)
                  \/ exists m, buf (logChan f) = m :: buf (logChan f'))
              /\ (worker f' = worker f
                  \/ (closeReady = true /\ worker f' = WDraining))).
    { intros E. apply writeIntoFile_config in E as (Hc & Hl & Hk).
      split; [| split].
      - apply (same_config_trans _ (set_logChan c f)); [| exact Hc].
        unfold same_config; simpl; auto 10.
      - right. exists m. rewrite Hl. exact Eb.
      - left. exact Hk. }
    destruct closeReady, pick; try exact Hw.
    unfold ret. intros E. injection E as <- <-.
    split; [unfold same_config; simpl; auto 10 |]. split; [now left | right; auto].
  - destruct closeReady; unfold_os; intros E; injection E as <- <-.
    + split; [unfold same_config; simpl; auto 10 |].
      split; [now left | right; auto].
    + split; [apply same_config_refl |]. split; now left.
Qed.

Lemma drain_iter_frame timerFired pick f o f' o' :
  drain_iter timerFired pick f o = (Ok f', o') ->
  same_config f f'
  /\ (buf (logChan f') = buf (logChan f)
      \/ exists m, buf (logChan f) = m :: buf (logChan f'))
  /\ (worker f' = worker f \/ (timerFired = true /\ worker f' = WStopped)).
Proof.
  unfold drain_iter.
  destruct (tryRecv (logChan f)) as [[m c]|] eqn:Er.
  - apply tryRecv_some in Er as [Eb Ec].
    assert (Hw : writeIntoFile (set_logChan c f) m o = (Ok f', o') ->
              same_config f f'
              /\ (buf (logChan f') = buf (logChan f)
                  \/ exists m, buf (logChan f) = m :: buf (logChan f'))
              /\ (worker f' = worker f
                  \/ (timerFired = true /\ worker f' = WStopped))).
    { intros E. apply writeIntoFile_config in E as (Hc & Hl & Hk).
      split; [| split].
      - apply (same_config_trans _ (set_logChan c f)); [| exact Hc].
        unfold same_config; simpl; auto 10.
      - right. exists m. rewrite Hl. exact Eb.
      - left. exact Hk. }
    destruct timerFired, pick; try exact Hw.
    unfold ret. intros E. injection E as <- <-.
    split; [unfold same_config; simpl; auto 10 |]. split; [now left | right; auto].
  - destruct timerFired; unfold ret; intros E; injection E as <- <-.
    + split; [unfold same_config; simpl; auto 10 |].
      split; [now left | right; auto].
    + split; [apply same_config_refl |]. split; now left.
Qed.

(** A step of the worker that returns leaves the configuration of the sink
    (level, layout, path fields, rotation mode, size limit, interval, queue
    capacity) as it was and never adds to the queue or reorders it: the
    queue is the same or has lost its first record. The worker leaves its
    main loop only for the inner loop and only when a close signal is
    waiting, leaves the inner loop only when the timer has fired, and once
    stopped does nothing. *)
Theorem worker_step_frame (closeReady timerFired : bool) (pick : Pick)
    (f f' : fileLogger) (o o' : OS) :
  worker_step closeReady timerFired pick f o = (Ok f', o') ->
  same_config f f'
  /\ (buf (logChan f') = buf (logChan f)
      \/ exists m, buf (logChan f) = m :: buf (logChan f'))
  /\ match worker f with
     | WRunning =>
         worker f' = WRunning \/ (closeReady = true /\ worker f' = WDraining)
     | WDraining =>
         worker f' = WDraining \/ (timerFired = true /\ worker f' = WStopped)
     | WStopped | WNotStarted => f' = f /\ o' = o
     end.
Proof.
  unfold worker_step. destruct (worker f) eqn:Ew.
  - unfold ret. intros E. injection E as <- <-.
    split; [apply same_config_refl | auto].
  - unfold writeLogBackground_iter, bind.
    destruct (sizeRotation f o) as [[f1| | |] o1] eqn:Es; try discriminate.
    intros E. apply sizeRotation_config in Es as (Hc1 & Hl1 & Hk1 & _).
    apply selectOnce_frame in E as (Hc2 & Hq & Hk2).
    split; [exact (same_config_trans _ _ _ Hc1 Hc2) |].
    rewrite Hl1, Hk1, Ew in *. auto.
  - intros E. apply drain_iter_frame in E as (Hc & Hq & Hk).
    rewrite Ew in Hk. auto.
  - unfold ret. intros E. injection E as <- <-.
    split; [apply same_config_refl | auto].
Qed.

Lemma fileLogger_log_frame f lv msg site o f' o' :
  fileLogger_log f lv msg site o = (Ok f', o') ->
  same_config f f' /\ fileObj f' = fileObj f /\ startTime f' = startTime f
  /\ worker f' = worker f
  /\ (buf (logChan f') = buf (logChan f)
      \/ (exists r, buf (logChan f') = buf (logChan f) ++ [r])
         /\ (length (buf (logChan f)) < cap (logChan f))%nat)
  /\ trace o' = trace o /\ names o' = names o /\ data o' = data o
  /\ files o' = files o.
Proof.
  unfold fileLogger_log. destruct (fileLogger_enable f lv).
  - unfold bind, time_Now.
    destruct (traceInfo_value site o) as [out ->].
    destruct site as [c|]; unfold trySend;
      destruct (Nat.ltb_spec (length (buf (logChan f))) (cap (logChan f)));
      unfold ret; intros E; injection E as <- <-; simpl;
      (split; [unfold same_config; simpl; auto 10 |]); eauto 15.
  - unfold ret. intros E. injection E as <- <-.
    split; [apply same_config_refl | auto 10].
Qed.

(** The queue never holds more than its capacity: a log call and a step of
    the worker keep the bound, and a log call adds at most one record, at
    the end, and only below the capacity. *)
Theorem queue_within_capacity (f : fileLogger) :
  queue_ok f ->
  (forall lv msg site o f' o',
     fileLogger_log f lv msg site o = (Ok f', o') ->
     queue_ok f'
     /\ (buf (logChan f') = buf (logChan f)
         \/ exists r, buf (logChan f') = buf (logChan f) ++ [r]))
  /\ (forall closeReady timerFired pick o f' o',
        worker_step closeReady timerFired pick f o = (Ok f', o') ->
        queue_ok f').
Proof.
  unfold queue_ok. intros Hq. split.
  - intros lv msg site o f' o' E.
    apply fileLogger_log_frame in E
      as ((_ & _ & _ & _ & _ & _ & _ & Ec) & _ & _ & _ & Hb & _).
    rewrite Ec. destruct Hb as [-> | [[r Er] Hlt]].
    + auto.
    + rewrite Er, length_app. simpl. split; [lia | eauto].
  - intros cr tf pk o f' o' E.
    apply worker_step_frame in E
      as ((_ & _ & _ & _ & _ & _ & _ & Ec) & Hb & _).
    rewrite Ec. destruct Hb as [-> | [m Em]]; [exact Hq |].
    rewrite Em in Hq. simpl in Hq. lia.
Qed.

End Frames.

Lemma worker_step_frame_witness :
  let f := set_logChan (mkChan [msg_demo] 8) fl_size in
  let r := worker_step (H := Sim.lib) false false PickFirst f os_big in
  exists f', returned (fst r) = Some f'
    /\ same_config f f'
    /\ (buf (logChan f') = buf (logChan f)
        \/ exists m, buf (logChan f) = m :: buf (logChan f'))
    /\ (worker f' = WRunning \/ (false = true /\ worker f' = WDraining)).
Proof.
  intros f r.
  assert (E : r = (Ok (set_fileObj 3%nat fl_size), snd r)) by (vm_compute; reflexivity).
  exists (set_fileObj 3%nat fl_size). split; [rewrite E; reflexivity |].
  exact (worker_step_frame (H := Sim.lib) false false PickFirst f _ os_big (snd r) E).
Defined.

Lemma queue_within_capacity_witness :
  let f := set_logChan (mkChan [msg_demo; msg_demo] 2) (fl_demo 2) in
  let r := fileLogger_log (H := Sim.lib) f INFO "hello" (Some site_main) os_demo in
  exists f', returned (fst r) = Some f'
    /\ queue_ok f'
    /\ (buf (logChan f') = buf (logChan f)
        \/ exists m, buf (logChan f') = buf (logChan f) ++ [m]).
Proof.
  intros f r.
  assert (E : r = (Ok f, snd r)) by (vm_compute; reflexivity).
  assert (Hq : queue_ok f) by (unfold queue_ok; simpl; lia).
  exists f. split; [rewrite E; reflexivity |].
  exact (proj1 (queue_within_capacity (H := Sim.lib) f Hq)
           INFO "hello" (Some site_main) os_demo f (snd r) E).
Defined.

(** ** Further properties: the interval *)

Section IntervalInvariant.
Context `{GoLib}.

Lemma fileLogger_Close_config f o f' o' :
  fileLogger_Close f o = (Ok f', o') -> same_config f f'.
Proof.
  unfold fileLogger_Close. destruct (worker f); try discriminate.
  unfold writeLogBackground_iter, bind.
  destruct (sizeRotation f o) as [[f1| | |] o1] eqn:Es; try discriminate.
  destruct (selectOnce true PickFirst f1 o1) as [[f2| | |] o2] eqn:El;
    try discriminate.
  destruct (file_Close (fileObj f2) o2) as [[r| | |] o3]; try discriminate.
  unfold ret. intros E. injection E as <- <-.
  apply sizeRotation_config in Es as (Hc1 & _).
  apply selectOnce_frame in El as (Hc2 & _).
  exact (same_config_trans _ _ _ Hc1 Hc2).
Qed.

Lemma splitFile_outcome f h mode o :
  exists v, fst (splitFile f h mode o) = Ok v
    /\ forall e, v = Err e ->
         In e ["stat failed"; "file already closed"; "invalid argument";
               "open failed"].
Proof.
  unfold splitFile. unfold_os.
  destruct (mode =? SplitBaseOnSize); [| destruct (mode =? SplitBaseOnTime)];
    os_cases; eexists; (split; [reflexivity |]); intros e E;
    try discriminate; injection E as <-; simpl; tauto.
Qed.

(** Every logger made through the interface of the package keeps an
    interval of at least ten minutes in its file sink: [New] and the mode
    setters give one (the default of 24 hours), [SetSplitDuration] stores
    only such an interval, and the other setters, [SetLevel] even when it
    panics, the log methods and [Close] leave it alone. So the remainder
    that [splitFileByTime] takes by the interval never divides by zero. *)
Theorem interval_at_least_ten_minutes (l : Log) (o : OS) :
  interval_ok New
  /\ interval_ok (SetConsoleMode l)
  /\ (forall l' o', SetFileMode l o = (Ok l', o') -> interval_ok l')
  /\ (forall l' o', SetBothMode l o = (Ok l', o') -> interval_ok l')
  /\ (forall d l' o', SetSplitDuration l d o = (Ok l', o') -> interval_ok l')
  /\ (interval_ok l ->
      (forall p, interval_ok (SetFilePath l p))
      /\ (forall n, interval_ok (SetFileName l n))
      /\ (forall fmt, interval_ok (SetTimeFormat l fmt))
      /\ (forall mode, interval_ok (SetSplitMode l mode))
      /\ (forall size, interval_ok (SetMaxFileSize l size))
      /\ (forall str, interval_ok (snd (SetLevel str l)))
      /\ (forall lv msg site l' o', Log_log lv l msg site o = (Ok l', o') ->
            interval_ok l')
      /\ (forall l' o', Log_Close l o = (Ok l', o') -> interval_ok l')
      /\ (forall f t o1, FLogger l = Some f ->
            fst (splitFileByTime f t o1) <> Panic "integer divide by zero")).
Proof.
  assert (Hnew : forall f o', newFileLogger o = (Ok f, o') ->
            time.Minute * 10 <= duration f).
  { intros f o'. unfold newFileLogger, initFile. unfold_os. os_cases;
      intros E; try discriminate; injection E as <- <-; simpl;
      vm_compute; discriminate. }
  split; [intros f E; discriminate |].
  split; [intros f E; discriminate |].
  split. { intros l' o'. unfold SetFileMode, bind.
    destruct (newFileLogger o) as [[f| | |] o1] eqn:En; try discriminate.
    unfold ret. intros E. injection E as <- <-. intros f0 E0.
    injection E0 as <-. exact (Hnew _ _ eq_refl). }
  split. { intros l' o'. unfold SetBothMode, bind.
    destruct (newFileLogger o) as [[f| | |] o1] eqn:En; try discriminate.
    unfold ret. intros E. injection E as <- <-. intros f0 E0.
    injection E0 as <-. exact (Hnew _ _ eq_refl). }
  split. { intros d l' o'. unfold SetSplitDuration.
    unfold bind, fmt_Print, os_Exit, time_Now, ret.
    destruct (Z.ltb_spec d (time.Minute * 10)) as [|Hd]; [discriminate |].
    intros E f' EF. destruct (FLogger l) as [f|] eqn:El.
    - injection E as <- <-. injection EF as <-. exact Hd.
    - injection E as <- <-. congruence. }
  intros Hok.
  assert (Hmap : forall (g : fileLogger -> fileLogger) c b,
            (forall f, duration (g f) = duration f) ->
            interval_ok (mkLog c (g <$> FLogger l) b)).
  { intros g c b Hg f' E. simpl in E. destruct (FLogger l) as [f|] eqn:El;
      [| discriminate]. injection E as <-. rewrite Hg. now apply Hok. }
  split; [intros; now apply Hmap |]. split; [intros; now apply Hmap |].
  split; [intros; now apply Hmap |]. split; [intros; now apply Hmap |].
  split; [intros; now apply Hmap |].
  split. { intros str. unfold SetLevel. destruct (s2L str) as [lv [e|]]; simpl;
    now apply Hmap. }
  split. { intros lv msg site l' o'. clear Hmap Hnew.
    destruct l as [cl fl cls]. unfold Log_log, bind, ret. simpl.
    destruct fl as [f|], cls; simpl;
      repeat match goal with
      | |- context [fileLogger_log ?f ?a ?b ?c ?o] =>
          destruct (fileLogger_log f a b c o) as [[?| | |] ?] eqn:Ef; simpl
      | |- context [consoleLogger_log ?c0 ?a ?b ?c ?o] =>
          destruct (consoleLogger_log c0 a b c o) as [[[]| | |] ?]; simpl
      | |- context [match ?x with Some _ => _ | None => _ end] =>
          destruct x; simpl
      end; try discriminate; intros E; injection E as <- <-; try exact Hok.
    all: apply fileLogger_log_frame in Ef as ((_ & _ & _ & _ & _ & _ & Ed & _) & _).
    all: intros f0 E0; simpl in E0; injection E0 as <-; rewrite Ed;
      now apply Hok. }
  split. { intros l' o'. unfold Log_Close, bind.
    destruct (FLogger l) as [f|] eqn:El.
    - destruct (fileLogger_Close f o) as [[f1| | |] o1] eqn:Ec; try discriminate.
      apply fileLogger_Close_config in Ec as (_ & _ & _ & _ & _ & _ & Ed & _).
      unfold ret. intros E. injection E as <- <-. intros f0 E0.
      injection E0 as <-. rewrite Ed. now apply Hok.
    - unfold ret. intros E. injection E as <- <-. exact Hok. }
  intros f t o1 El. pose proof (Hok f El) as Hd.
  assert (Hnz : (duration f =? 0) = false).
  { apply Z.eqb_neq. unfold time.Minute, time.Second in Hd. lia. }
  unfold splitFileByTime.
  destruct ((splitMode f =? SplitBaseOnTime) && checkTime f t); [| discriminate].
  unfold bind.
  destruct (splitFile_outcome f (fileObj f) SplitBaseOnTime o1) as (v & Ev & Herr).
  destruct (splitFile f (fileObj f) SplitBaseOnTime o1) as [r o2].
  simpl in Ev. subst r. rewrite Hnz. destruct v as [h|e]; [discriminate |].
  simpl. intros E. injection E as ->.
  destruct (Herr _ eq_refl) as [E | [E | [E | [E | []]]]]; discriminate E.
Qed.

End IntervalInvariant.

Lemma interval_at_least_ten_minutes_witness :
  let l := mkLog None (Some fl_daily) false in
  interval_ok (SetFilePath l "/var/log/")
  /\ fst (splitFileByTime (H := Sim.lib) fl_daily (t_demo + time.Hour * 24) os_demo)
     <> Panic "integer divide by zero".
Proof.
  intros l.
  assert (Hok : interval_ok l).
  { intros f E. injection E as <-. vm_compute. discriminate. }
  destruct (proj2 (proj2 (proj2 (proj2 (proj2
              (interval_at_least_ten_minutes (H := Sim.lib) l os_demo))))) Hok)
    as (Hp & _ & _ & _ & _ & _ & _ & _ & Hdiv).
  split; [apply Hp | apply Hdiv; reflexivity].
Defined.

(** ** Further properties: delivery *)

Section Delivery.
Context `{GoLib}.

Lemma fmt_Fprint_open h s o nm ino :
  files o !! h = Some (mkFile nm ino false) -> fails o SysWrite = false ->
  exists o', fmt_Fprint h s o = (Ok (Val tt), o')
    /\ contents o' ino = contents o ino +:+ s
    /\ names o' = names o /\ files o' = files o /\ fails o' = fails o
    /\ stdout o' = stdout o /\ trace o' = trace o ++ [EvWrite h s].
Proof.
  intros Hf Hw. unfold fmt_Fprint. simpl. rewrite Hw, Hf. simpl.
  eexists. split; [reflexivity |]. unfold contents. simpl.
  rewrite lookup_insert_eq. auto 10.
Qed.


Lemma none_mode_no_time_rotation f t :
  splitMode f <> SplitBaseOnTime ->
  (splitMode f =? SplitBaseOnTime) && checkTime f t = false.
Proof. intros Hn. apply Z.eqb_neq in Hn. now rewrite Hn. Qed.

Lemma run_worker_in_order ms : forall f o nm ino,
  buf (logChan f) = ms ->
  worker f = WRunning -> splitMode f = SplitNone ->
  files o !! fileObj f = Some (mkFile nm ino false) ->
  fails o SysWrite = false ->
  exists o',
    run_worker (length ms) f o
      = (Ok (set_logChan (mkChan [] (cap (logChan f))) f), o')
    /\ contents o' ino = contents o ino +:+ lines_of ms
    /\ trace o' = trace o ++ List.map (fun m => EvWrite (fileObj f) (file_line m)) ms
    /\ names o' = names o /\ stdout o' = stdout o.
Proof.
  induction ms as [|m ms IH]; intros f o nm ino Eb Hw Hm Hf Hfail.
  - exists o. simpl. rewrite append_nil_r, app_nil_r.
    split; [| auto]. unfold ret. destruct f as [? ? ? ? [b c] ? ? ? ? ? ?].
    simpl in Eb. subst b. reflexivity.
  - simpl run_worker. unfold bind at 1. unfold worker_step. rewrite Hw.
    unfold writeLogBackground_iter, sizeRotation. rewrite Hm.
    change (SplitNone =? SplitBaseOnSize) with false. unfold bind at 1, ret at 1.
    unfold selectOnce, tryRecv. rewrite Eb.
    rewrite writeIntoFile_no_rotation
      by (apply none_mode_no_time_rotation; simpl; rewrite Hm; discriminate).
    simpl fileObj.
    destruct (fmt_Fprint_open (fileObj f) (file_line m) o nm ino Hf Hfail)
      as (o1 & E1 & Hc1 & Hn1 & Hf1 & Hl1 & Hs1 & Ht1).
    rewrite E1. simpl snd.
    destruct (IH (set_logChan (mkChan ms (cap (logChan f))) f) o1 nm ino)
      as (o' & E & Hc & Ht & Hn & Hs);
      [reflexivity | exact Hw | exact Hm | now rewrite Hf1 | congruence |].
    exists o'. split.
    { rewrite E. destruct f; reflexivity. }
    simpl lines_of. rewrite Hc, Hc1, append_assoc. split; [reflexivity |].
    split. { rewrite Ht, Ht1, <- app_assoc. reflexivity. }
    split; congruence.
Qed.

(** With no rotation configured, the file open and writes succeeding, the
    worker takes the records of the queue one per iteration, first in first
    out: after as many iterations as there are records the queue is empty
    and the file has grown by their lines, in the order of the queue, with
    one write per record and no other system call. *)
Theorem worker_writes_in_order (f : fileLogger) (o : OS) (nm : string) (ino : nat) :
  worker f = WRunning -> splitMode f = SplitNone ->
  files o !! fileObj f = Some (mkFile nm ino false) ->
  fails o SysWrite = false ->
  exists o',
    run_worker (length (buf (logChan f))) f o
      = (Ok (set_logChan (mkChan [] (cap (logChan f))) f), o')
    /\ contents o' ino = contents o ino +:+ lines_of (buf (logChan f))
    /\ trace o' = trace o
         ++ List.map (fun m => EvWrite (fileObj f) (file_line m)) (buf (logChan f))
    /\ names o' = names o /\ stdout o' = stdout o.
Proof. intros. now apply (run_worker_in_order _ f o nm ino). Qed.


Lemma fileLogger_Close_post f o f' o' :
  fileLogger_Close f o = (Ok f', o') ->
  worker f = WRunning /\ worker f' = WDraining
  /\ forall fl, files o' !! fileObj f' = Some fl -> f_closed fl = true.
Proof.
  unfold fileLogger_Close. destruct (worker f) eqn:Ew; try discriminate.
  unfold writeLogBackground_iter, bind.
  destruct (sizeRotation f o) as [[f1| | |] o1] eqn:Es; try discriminate.
  assert (Esel : selectOnce true PickFirst f1 o1 = (Ok (set_worker WDraining f1), o1)).
  { unfold selectOnce. destruct (tryRecv (logChan f1)) as [[m c]|]; reflexivity. }
  rewrite Esel. unfold file_Close. simpl.
  destruct (files o1 !! fileObj f1) as [fl0|] eqn:Ef.
  - destruct (f_closed fl0) eqn:Ec.
    + unfold ret. intros E. injection E as <- <-. simpl. rewrite Ef.
      split; [reflexivity |]. split; [reflexivity |].
      intros fl E. injection E as <-. exact Ec.
    + destruct (fails o1 SysClose); unfold ret; intros E; injection E as <- <-;
        simpl; rewrite lookup_insert_eq;
        (split; [reflexivity |]); (split; [reflexivity |]);
        intros fl E; injection E as <-; reflexivity.
  - unfold ret. intros E. injection E as <- <-. simpl. rewrite Ef.
    split; [reflexivity |]. split; [reflexivity |]. discriminate.
Qed.

(** When [Log.Close] returns on a logger with a file sink, the worker has
    left its main loop, the file object of the sink is closed and the closed
    flag is as before; a second [Close] then waits forever, because nobody
    receives on the close channel any more. *)
Theorem Close_once (l l' : Log) (o o' : OS) (f : fileLogger) :
  FLogger l = Some f ->
  Log_Close l o = (Ok l', o') ->
  (exists f', FLogger l' = Some f' /\ worker f' = WDraining
     /\ forall fl, files o' !! fileObj f' = Some fl -> f_closed fl = true)
  /\ isClose l' = isClose l /\ CLogger l' = CLogger l
  /\ forall o2, Log_Close l' o2 = (Block, o2).
Proof.
  intros El. unfold Log_Close at 1. rewrite El. unfold bind.
  destruct (fileLogger_Close f o) as [[f1| | |] o1] eqn:Ec; try discriminate.
  unfold ret. intros E. injection E as <- <-.
  apply fileLogger_Close_post in Ec as (_ & Hd & Hcl).
  split; [exists f1; simpl; auto |]. split; [reflexivity |].
  split; [reflexivity |].
  intros o2. unfold Log_Close. simpl. unfold bind, fileLogger_Close.
  rewrite Hd. reflexivity.
Qed.


End Delivery.

Lemma worker_writes_in_order_witness :
  let f := set_logChan (mkChan [msg_demo; msg_clock] 8) (fl_demo 8) in
  exists o',
    run_worker (H := Sim.lib) 2 f os_demo = (Ok (fl_demo 8), o')
    /\ contents o' 2 = contents os_demo 2 +:+ lines_of [msg_demo; msg_clock]
    /\ trace o' = trace os_demo
         ++ [EvWrite 1 (file_line msg_demo); EvWrite 1 (file_line msg_clock)]
    /\ names o' = names os_demo /\ stdout o' = stdout os_demo.
Proof.
  intros f.
  apply (worker_writes_in_order (H := Sim.lib) f os_demo "log/ALog.log" 2);
    reflexivity.
Defined.

Lemma Close_once_witness :
  let l := mkLog None (Some (fl_demo 8)) false in
  let r := Log_Close (H := Sim.lib) l os_demo in
  exists l', returned (fst r) = Some l'
    /\ isClose l' = false
    /\ forall o2, Log_Close (H := Sim.lib) l' o2 = (Block, o2).
Proof.
  intros l r.
  assert (E : r = (Ok (mkLog None (Some (set_worker WDraining (fl_demo 8))) false),
                   snd r)) by (vm_compute; reflexivity).
  eexists. split; [rewrite E; reflexivity |].
  destruct (Close_once (H := Sim.lib) l _ os_demo (snd r) (fl_demo 8) eq_refl E)
    as (_ & Hflag & _ & Hblock).
  split; [exact Hflag | exact Hblock].
Defined.


(** ** Further properties: what a rotation does to the files *)

Section RotationEffects.
Context `{GoLib}.

Lemma append_same_r s t : s +:+ t = s -> t = "".
Proof.
  induction s as [|c s IH]; [auto |]. rewrite append_cons.
  intros E. injection E as E. auto.
Qed.

Lemma backup_name_differs nm stamp : nm +:+ "." +:+ stamp +:+ ".bak" <> nm.
Proof. intros E. apply append_same_r in E. discriminate E. Qed.

Lemma splitFile_ok f h mode o nm ino :
  files o !! h = Some (mkFile nm ino false) ->
  (forall s, fails o s = false) ->
  let logName := path.Join (filePath f) (path.Base nm) in
  let bak := logName +:+ "." +:+ stamp_of f mode o +:+ ".bak" in
  exists o',
    splitFile f h mode o = (Ok (Val (next o)), o')
    /\ trace o' = trace o
         ++ [EvStat h; EvClose h; EvRename logName bak; EvOpenFile logName]
    /\ files o' = <[next o := mkFile logName (S (next o)) false]>
                    (<[h := mkFile nm ino true]> (files o))
    /\ names o' = <[logName := S (next o)]>
                    (match names o !! logName with
                     | Some i => <[bak := i]> (delete logName (names o))
                     | None => names o
                     end)
    /\ data o' = <[S (next o) := ""]> (data o)
    /\ fails o' = fails o /\ stdout o' = stdout o /\ clock o' = clock o.
Proof.
  intros Hf Hok logName bak.
  pose proof (Hok SysStat) as H1. pose proof (Hok SysClose) as H2.
  pose proof (Hok SysRename) as H3. pose proof (Hok SysOpenFile) as H4.
  unfold splitFile, stamp_of in *. unfold_os. subst bak logName.
  destruct (mode =? SplitBaseOnSize); [| destruct (mode =? SplitBaseOnTime)];
    os_cases.
  all: try match goal with
    | Hx : <[_ := _]> (delete _ _) !! _ = Some _ |- _ =>
        rewrite lookup_insert_ne, lookup_delete_eq in Hx
          by apply backup_name_differs; discriminate Hx
    | Hx : Some _ = None |- _ => discriminate Hx
    end.
  all: eexists; (split; [reflexivity |]); simpl; rewrite <- ?app_assoc;
    auto 10.
Qed.

(** A rotation by size that meets no failing call, on a sink whose
    directory is still the one of the open file: the file that was active is
    now under the name with the clock stamp and [.bak], with its contents;
    the active name is a new, empty file; the sink holds a new open file
    object on it and the old one is closed. *)
Theorem size_rotation_archives (f : fileLogger) (o : OS) (nm : string) (ino : nat) :
  splitMode f = SplitBaseOnSize ->
  files o !! fileObj f = Some (mkFile nm ino false) ->
  path.Join (filePath f) (path.Base nm) = nm ->
  names o !! nm = Some ino ->
  maxFileSize f <= Z.of_nat (String.length (contents o ino)) ->
  (forall s, fails o s = false) ->
  ino <> S (next o) -> fileObj f <> next o ->
  let bak := nm +:+ "." +:+ time_Format (clock o) "20060102150405" +:+ ".bak" in
  exists o',
    sizeRotation f o = (Ok (set_fileObj (next o) f), o')
    /\ names o' !! bak = Some ino /\ contents o' ino = contents o ino
    /\ names o' !! nm = Some (S (next o)) /\ contents o' (S (next o)) = ""
    /\ files o' !! next o = Some (mkFile nm (S (next o)) false)
    /\ files o' !! fileObj f = Some (mkFile nm ino true).
Proof.
  intros Hm Hf HJ Hn Hsz Hok Hino Hobj bak.
  unfold sizeRotation, checkSize. rewrite Hm, Z.eqb_refl.
  unfold bind at 1. unfold bind at 1. unfold file_Stat. simpl.
  rewrite (Hok SysStat), Hf. simpl. unfold ret at 1.
  match goal with |- context [?a >=? ?b] => destruct (Z.geb_spec a b) as [_|Hlt] end;
    [| unfold contents in *; simpl in *; lia].
  destruct (splitFile_ok f (fileObj f) SplitBaseOnSize
              (emit (EvStat (fileObj f)) o) nm ino Hf Hok)
    as (o' & E & _ & Hfs & Hns & Hd & _).
  unfold bind. rewrite E. unfold ret. exists o'. split; [reflexivity |].
  simpl in Hfs, Hns, Hd. rewrite HJ, Hn in Hns.
  unfold stamp_of in Hns. simpl in Hns. fold bak in Hns.
  assert (Hb : bak <> nm) by apply backup_name_differs.
  unfold contents. rewrite Hns, Hfs, Hd, HJ.
  rewrite lookup_insert_ne by congruence. rewrite lookup_insert_eq.
  rewrite (lookup_insert_ne (data o)) by congruence.
  rewrite !lookup_insert_eq.
  rewrite lookup_insert_ne by congruence. rewrite lookup_insert_eq.
  auto 10.
Qed.


(** Rotation by time. A record whose time is less than the interval after
    the period start touches nothing. A record at or past it, with no call
    failing, makes the four calls of a rotation on the current file object;
    the archive is named with the old period start, printed in the layout
    chosen by the interval, and the new period start is the time of the
    record itself, whatever the remainder computed before. *)
Theorem time_rotation_steps (f : fileLogger) (t : Time) (o : OS) (nm : string)
    (ino : nat) :
  splitMode f = SplitBaseOnTime -> duration f <> 0 ->
  files o !! fileObj f = Some (mkFile nm ino false) ->
  (forall s, fails o s = false) ->
  let logName := path.Join (filePath f) (path.Base nm) in
  let bak := logName +:+ "." +:+ time_Format (startTime f) (suffixLayout (duration f))
                     +:+ ".bak" in
  (checkTime f t = false -> splitFileByTime f t o = (Ok f, o))
  /\ (checkTime f t = true ->
      exists o',
        splitFileByTime f t o = (Ok (set_fileObj (next o) (set_startTime t f)), o')
        /\ trace o' = trace o
             ++ [EvStat (fileObj f); EvClose (fileObj f); EvRename logName bak;
                 EvOpenFile logName]).
Proof.
  intros Hm Hd Hf Hok logName bak. unfold splitFileByTime.
  rewrite Hm, Z.eqb_refl. simpl. split; intros Hc; rewrite Hc; [reflexivity |].
  destruct (splitFile_ok f (fileObj f) SplitBaseOnTime o nm ino Hf Hok)
    as (o' & E & Htr & _).
  unfold bind. rewrite E. apply Z.eqb_neq in Hd. rewrite Hd.
  exists o'. split; [| exact Htr].
  unfold ret. destruct (Z.quot _ time.Second =? 0); destruct f; reflexivity.
Qed.

(** A record whose timestamp does not parse in the layout of the sink (the
    layout was changed after the record was made, say) counts as the zero
    time: with a period start at or after the zero time it never triggers a
    rotation by time and is written to the current file. *)
Theorem unparsable_timestamp_never_rotates (f : fileLogger) (m : logMsg) (o : OS) :
  time_ParseInLocation (timeFormat f) (m_timeStamp m) = None ->
  time.zero <= startTime f -> 0 < duration f ->
  exists r o',
    fmt_Fprint (fileObj f) (file_line m) o = (Ok r, o')
    /\ writeIntoFile f m o = (Ok f, o')
    /\ trace o' = trace o ++ [EvWrite (fileObj f) (file_line m)].
Proof.
  intros Hp Hs Hd.
  assert (Hno : (splitMode f =? SplitBaseOnTime)
                && checkTime f (default time.zero
                     (time_ParseInLocation (timeFormat f) (m_timeStamp m))) = false).
  { rewrite Hp. simpl. apply andb_false_iff. right. unfold checkTime.
    destruct (Z.geb_spec (time.Sub time.zero (startTime f)) (duration f)) as [Hge|];
      [| reflexivity].
    exfalso. revert Hge. unfold time.Sub, time.minDuration, time.maxDuration.
    destruct (Z.ltb_spec (time.zero - startTime f) (- 2 ^ 63)); [lia |].
    destruct (Z.ltb_spec (2 ^ 63 - 1) (time.zero - startTime f)); lia. }
  rewrite (writeIntoFile_no_rotation f m o Hno).
  destruct (fmt_Fprint_effect (fileObj f) (file_line m) o)
    as (r & o' & E & _ & Htr & _).
  exists r, o'. rewrite E. auto.
Qed.

End RotationEffects.

Lemma size_rotation_archives_witness :
  let bak := "log/ALog.log" +:+ "." +:+ Sim.Format (clock os_big) "20060102150405"
                +:+ ".bak" in
  exists o',
    sizeRotation (H := Sim.lib) fl_size os_big = (Ok (set_fileObj (next os_big) fl_size), o')
    /\ names o' !! bak = Some 2%nat /\ contents o' 2 = contents os_big 2
    /\ names o' !! "log/ALog.log" = Some (S (next os_big))
    /\ contents o' (S (next os_big)) = ""
    /\ files o' !! next os_big = Some (mkFile "log/ALog.log" (S (next os_big)) false)
    /\ files o' !! fileObj fl_size = Some (mkFile "log/ALog.log" 2 true).
Proof.
  apply (size_rotation_archives (H := Sim.lib) fl_size os_big "log/ALog.log" 2);
    try reflexivity; discriminate.
Defined.


Lemma time_rotation_steps_witness :
  exists o',
    splitFileByTime (H := Sim.lib) fl_daily (t_demo + time.Hour * 24) os_demo
      = (Ok (set_fileObj (next os_demo)
               (set_startTime (t_demo + time.Hour * 24) fl_daily)), o')
    /\ trace o' = trace os_demo
         ++ [EvStat 1; EvClose 1;
             EvRename "log/ALog.log" "log/ALog.log.20220325.bak";
             EvOpenFile "log/ALog.log"].
Proof.
  apply (proj2 (time_rotation_steps (H := Sim.lib) fl_daily
                  (t_demo + time.Hour * 24) os_demo "log/ALog.log" 2
                  eq_refl ltac:(discriminate) eq_refl (fun _ => eq_refl))).
  reflexivity.
Defined.

Lemma unparsable_timestamp_never_rotates_witness :
  exists r o',
    fmt_Fprint (fileObj fl_daily) (file_line msg_clock) os_demo = (Ok r, o')
    /\ writeIntoFile (H := Sim.lib) fl_daily msg_clock os_demo = (Ok fl_daily, o')
    /\ trace o' = trace os_demo ++ [EvWrite (fileObj fl_daily) (file_line msg_clock)].
Proof.
  apply (unparsable_timestamp_never_rotates (H := Sim.lib) fl_daily msg_clock os_demo).
  - reflexivity.
  - vm_compute. discriminate.
  - reflexivity.
Defined.

(** ** Further properties: the stored file name *)

Section FileNameField.
Context `{GoLib}.

Lemma splitFile_fileName n f h mode :
  splitFile (set_fileName n f) h mode = splitFile f h mode.
Proof. reflexivity. Qed.

Lemma checkSize_fileName n f h : checkSize (set_fileName n f) h = checkSize f h.
Proof. reflexivity. Qed.

Lemma splitFileByTime_fileName n f t o :
  splitFileByTime (set_fileName n f) t o
  = (omap (set_fileName n) (fst (splitFileByTime f t o)),
     snd (splitFileByTime f t o)).
Proof.
  unfold splitFileByTime. rewrite splitFile_fileName. simpl.
  change (checkTime (set_fileName n f) t) with (checkTime f t).
  destruct ((splitMode f =? SplitBaseOnTime) && checkTime f t); [| reflexivity].
  unfold bind.
  destruct (splitFile f (fileObj f) SplitBaseOnTime o) as [[[h|e]| | |] o2];
    simpl; try reflexivity;
    destruct (duration f =? 0); simpl; try reflexivity;
    destruct (Z.quot _ time.Second =? 0); reflexivity.
Qed.

Lemma writeIntoFile_fileName n f m o :
  writeIntoFile (set_fileName n f) m o
  = (omap (set_fileName n) (fst (writeIntoFile f m o)), snd (writeIntoFile f m o)).
Proof.
  unfold writeIntoFile, bind. simpl timeFormat.
  rewrite splitFileByTime_fileName.
  destruct (splitFileByTime f _ o) as [[f1| | |] o1]; simpl; try reflexivity.
  destruct (fmt_Fprint (fileObj f1) _ o1) as [[r| | |] o2]; reflexivity.
Qed.

Lemma sizeRotation_fileName n f o :
  sizeRotation (set_fileName n f) o
  = (omap (set_fileName n) (fst (sizeRotation f o)), snd (sizeRotation f o)).
Proof.
  unfold sizeRotation. rewrite splitFile_fileName, checkSize_fileName. simpl.
  destruct (splitMode f =? SplitBaseOnSize); [| reflexivity].
  unfold bind.
  destruct (checkSize f (fileObj f) o) as [[[|]| | |] o1]; simpl; try reflexivity.
  destruct (splitFile f (fileObj f) SplitBaseOnSize o1) as [[[h|e]| | |] o2];
    reflexivity.
Qed.

Lemma selectOnce_fileName n closeReady pick f o :
  selectOnce closeReady pick (set_fileName n f) o
  = (omap (set_fileName n) (fst (selectOnce closeReady pick f o)),
     snd (selectOnce closeReady pick f o)).
Proof.
  unfold selectOnce.
  change (logChan (set_fileName n f)) with (logChan f).
  destruct closeReady, (tryRecv (logChan f)) as [[m c]|], pick; simpl;
    try reflexivity;
    exact (writeIntoFile_fileName n (set_logChan c f) m o).
Qed.

Lemma drain_iter_fileName n timerFired pick f o :
  drain_iter timerFired pick (set_fileName n f) o
  = (omap (set_fileName n) (fst (drain_iter timerFired pick f o)),
     snd (drain_iter timerFired pick f o)).
Proof.
  unfold drain_iter.
  change (logChan (set_fileName n f)) with (logChan f).
  destruct (tryRecv (logChan f)) as [[m c]|], timerFired, pick; simpl;
    try reflexivity;
    exact (writeIntoFile_fileName n (set_logChan c f) m o).
Qed.

(** The file name stored by [SetFileName] is read by nothing that runs
    afterwards: with any name in the field, each step of the worker (writes
    and rotations included), each log call and [Close] make the same calls
    on the same files and end in the same state, the field apart. Only the
    directory stored by [SetFilePath] is read again, by the rotation. *)
Theorem stored_fileName_is_never_read (n : string) (f : fileLogger) (o : OS) :
  (forall closeReady timerFired pick,
     worker_step closeReady timerFired pick (set_fileName n f) o
     = (omap (set_fileName n) (fst (worker_step closeReady timerFired pick f o)),
        snd (worker_step closeReady timerFired pick f o)))
  /\ (forall lv msg site,
        fileLogger_log (set_fileName n f) lv msg site o
        = (omap (set_fileName n) (fst (fileLogger_log f lv msg site o)),
           snd (fileLogger_log f lv msg site o)))
  /\ fileLogger_Close (set_fileName n f) o
     = (omap (set_fileName n) (fst (fileLogger_Close f o)),
        snd (fileLogger_Close f o)).
Proof.
  assert (Hiter : forall cr pk o1,
            writeLogBackground_iter cr pk (set_fileName n f) o1
            = (omap (set_fileName n) (fst (writeLogBackground_iter cr pk f o1)),
               snd (writeLogBackground_iter cr pk f o1))).
  { intros cr pk o1. unfold writeLogBackground_iter, bind.
    rewrite sizeRotation_fileName.
    destruct (sizeRotation f o1) as [[f1| | |] o2]; simpl; try reflexivity.
    apply selectOnce_fileName. }
  split; [| split].
  - intros cr tf pk. unfold worker_step.
    change (worker (set_fileName n f)) with (worker f).
    destruct (worker f); try reflexivity.
    + apply Hiter.
    + apply drain_iter_fileName.
  - intros lv msg site. unfold fileLogger_log.
    change (fileLogger_enable (set_fileName n f) lv) with (fileLogger_enable f lv).
    destruct (fileLogger_enable f lv); [| reflexivity].
    unfold bind, time_Now.
    destruct (traceInfo_value site o) as [out ->].
    destruct site as [c|]; simpl; destruct (trySend _ _); reflexivity.
  - unfold fileLogger_Close. change (worker (set_fileName n f)) with (worker f).
    destruct (worker f); try reflexivity.
    unfold bind. rewrite Hiter.
    destruct (writeLogBackground_iter true PickFirst f o) as [[f1| | |] o1];
      simpl; try reflexivity.
    destruct (file_Close (fileObj f1) o1) as [[r| | |] o2]; reflexivity.
Qed.

End FileNameField.

(** ** Further properties: the time check *)

(** For an interval in the range of [time.Duration] (its least value
    apart), the saturation of [Time.Sub] does not change the decision: a
    record triggers the rotation by time exactly when its time is at or
    past the period start plus the interval, however far apart the two
    instants are. *)
Theorem checkTime_exact (f : fileLogger) (t : Time) :
  time.minDuration < duration f <= time.maxDuration ->
  (checkTime f t = true <-> startTime f + duration f <= t).
Proof.
  unfold checkTime, time.Sub, time.minDuration, time.maxDuration. intros Hd.
  destruct (Z.ltb_spec (t - startTime f) (- 2 ^ 63));
    [| destruct (Z.ltb_spec (2 ^ 63 - 1) (t - startTime f))];
    match goal with |- (?a >=? ?b) = true <-> _ => destruct (Z.geb_spec a b) end;
    split; intros; try lia; try reflexivity; try discriminate.
Qed.

Lemma checkTime_exact_witness :
  checkTime fl_daily (t_demo + time.Hour * 24) = true
  <-> startTime fl_daily + duration fl_daily <= t_demo + time.Hour * 24.
Proof.
  apply (checkTime_exact fl_daily (t_demo + time.Hour * 24)).
  vm_compute. split; [reflexivity | discriminate].
Defined.

(** ** Further properties: the termination signal and the two sinks *)

Section Signal.
Context `{GoLib}.

(** The goroutine that [New] starts for the termination signals never
    returns. On a logger without a file sink it prints its notice, waits
    half a second and ends the process with status 1. On a logger whose
    worker has already left its main loop, as after a call of [Close], it
    prints the notice and then waits forever in [Close]: the process is not
    ended. *)
Theorem onSignal_outcome (l : Log) (o : OS) :
  (forall l', fst (onSignal l o) <> Ok l')
  /\ (FLogger l = None ->
      onSignal l o
      = (Exit 1,
         set_clock (clock o + time.Millisecond * 500)
           (set_stdout (stdout o ++ ["Cleaning before stop..." +:+ nl]) o)))
  /\ (forall f, FLogger l = Some f -> worker f <> WRunning ->
        fst (onSignal l o) = Block
        /\ stdout (snd (onSignal l o))
           = stdout o ++ ["Cleaning before stop..." +:+ nl]).
Proof.
  unfold onSignal, bind, fmt_Print, time_Sleep, os_Exit, Log_Close. simpl.
  split; [| split].
  - intros l'. destruct (FLogger l) as [f|]; simpl.
    + unfold bind.
      destruct (fileLogger_Close f _) as [[f1| | |] o1]; simpl; discriminate.
    + discriminate.
  - intros ->. reflexivity.
  - intros f -> Hw. unfold bind, fileLogger_Close.
    destruct (worker f); try contradiction; simpl; auto.
Qed.

(** A call at a level that both sinks let through, on a logger that is not
    closed: the console line is printed in any case, the record joins the
    end of the queue when there is room and is dropped when the queue is
    full, and no system call is made. The record and the line carry the same
    level, message, file, function and line number. *)
Theorem enabled_call_reaches_the_sinks (c : consoleLogger) (f : fileLogger)
    (lv : Level) (msg : string) (site : Caller) (o : OS) :
  c_level c <= lv -> level f <= lv ->
  let file := path.Base (c_file site) in
  let func := nth 1 (GoStr.Split (FuncName site) ".") "" in
  let rec := mkLogMsg lv msg func file (time_Format (clock o) (timeFormat f))
               (c_line site) in
  let f' := if (length (buf (logChan f)) <? cap (logChan f))%nat
            then set_logChan (mkChan (buf (logChan f) ++ [rec]) (cap (logChan f))) f
            else f in
  Log_log lv (mkLog (Some c) (Some f) false) msg (Some site) o
  = (Ok (mkLog (Some c) (Some f') false),
     set_stdout
       (stdout o ++ [Sprintf_line (time_Format (clock o) (c_timeFormat c)) (l2S lv)
                       file func (c_line site) msg]) o).
Proof.
  intros Hc Hf file func rec f'.
  unfold Log_log, bind, ret, fileLogger_log, consoleLogger_log,
    fileLogger_enable, consoleLogger_enable, time_Now, traceInfo, fmt_Print,
    trySend. simpl.
  apply Z.leb_le in Hc, Hf. rewrite Hf. simpl.
  subst f' rec file func.
  destruct ((length (buf (logChan f)) <? cap (logChan f))%nat); simpl;
    rewrite Hc; reflexivity.
Qed.

End Signal.

Lemma onSignal_outcome_witness :
  fst (onSignal (H := Sim.lib) New os_demo) = Exit 1
  /\ fst (onSignal (H := Sim.lib)
            (mkLog None (Some (set_worker WDraining (fl_demo 8))) false) os_demo)
     = Block.
Proof.
  split.
  - rewrite (proj1 (proj2 (onSignal_outcome (H := Sim.lib) New os_demo)) eq_refl).
    reflexivity.
  - apply (proj2 (proj2 (onSignal_outcome (H := Sim.lib)
                    (mkLog None (Some (set_worker WDraining (fl_demo 8))) false)
                    os_demo)) (set_worker WDraining (fl_demo 8)) eq_refl).
    discriminate.
Defined.

Lemma enabled_call_reaches_the_sinks_witness :
  let f := set_logChan (mkChan [msg_demo; msg_demo] 2) (fl_demo 2) in
  Log_log (H := Sim.lib) WARN (mkLog (Some newConsoleLogger) (Some f) false)
    "disk almost full" (Some site_main) os_demo
  = (Ok (mkLog (Some newConsoleLogger) (Some f) false),
     set_stdout
       (stdout os_demo
          ++ ["[2022-03-25 20:24:24] [WARN] [main.go:main:11] disk almost full" +:+ nl])
       os_demo).
Proof.
  intros f.
  apply (enabled_call_reaches_the_sinks (H := Sim.lib) newConsoleLogger f WARN
           "disk almost full" site_main os_demo); vm_compute; discriminate.
Defined.
